(** * PrOMMiS flowsheet glue: the SX/leaching translator block and the
      diafiltration driver

    A shallow embedding of

    - [UKy_flowsheet/Translators/translator_SX_leaching.py]
      (class [TranslatorDataLeachingSX]: [build] and [initialize_build]);
    - [nanofiltration/membrane_cascade_flowsheet/solve_diafiltration.py]
      (function [main]).

    Both files drive Pyomo/IDAES objects.  The objects themselves (state
    blocks, solvers, the diafiltration model class) are collaborators that
    live outside these two files; they enter the embedding as records of
    operations which may return or raise.  Python control flow, argument
    values, evaluation order and exceptions are modelled explicitly. *)

From Stdlib Require Import ZArith String List Bool Lia.
From Stdlib Require Import PrimFloat Uint63 DecimalString.
Import ListNotations.

Set Warnings "-inexact-float".

Local Open Scope string_scope.
Local Open Scope list_scope.
Local Open Scope Z_scope.

(* ===================================================================== *)
(** * Python values and exceptions *)
(* ===================================================================== *)

(** Exceptions that the two files raise themselves or receive from Python
    subscripting, plus a constructor for whatever a collaborator raises. *)
Inductive exn : Type :=
| KeyError (key : string)
| IndexError (msg : string)
| ValueError (msg : string)
| Exception_ (msg : string)
| InitializationError (msg : string)
| ExternalError (what : string).

(** [str(n)] for a Python int. *)
Definition str_int (n : Z) : string := NilZero.string_of_int (Z.to_int n).

(** Python numbers: [int] is unbounded, [float] is IEEE binary64. *)
Inductive PyNum : Type :=
| PyInt (z : Z)
| PyFloat (x : float).

(** int -> float promotion.  Exact Python behaviour for [|z| < 2^63]
    (correctly rounded), which covers every literal of the sources. *)
Definition float_of_Z (z : Z) : float :=
  if z <? 0 then PrimFloat.opp (PrimFloat.of_uint63 (Uint63.of_Z (- z)))
  else PrimFloat.of_uint63 (Uint63.of_Z z).

(** The binary [*] of Python on numbers. *)
Definition py_mul (a b : PyNum) : PyNum :=
  match a, b with
  | PyInt x, PyInt y => PyInt (x * y)
  | PyFloat x, PyInt y => PyFloat (PrimFloat.mul x (float_of_Z y))
  | PyInt x, PyFloat y => PyFloat (PrimFloat.mul (float_of_Z x) y)
  | PyFloat x, PyFloat y => PyFloat (PrimFloat.mul x y)
  end.

(** The [==] of Python on numbers (an int is compared with a float by
    value). *)
Definition py_eqb (a b : PyNum) : bool :=
  match a, b with
  | PyInt x, PyInt y => x =? y
  | PyFloat x, PyInt y => PrimFloat.eqb x (float_of_Z y)
  | PyInt x, PyFloat y => PrimFloat.eqb (float_of_Z x) y
  | PyFloat x, PyFloat y => PrimFloat.eqb x y
  end.

(** A dict literal with string keys, in insertion order. *)
Definition dict (V : Type) : Type := list (string * V).

Fixpoint dict_get {V : Type} (d : dict V) (k : string) : option V :=
  match d with
  | [] => None
  | (k', v) :: d' => if String.eqb k' k then Some v else dict_get d' k
  end.

(* ===================================================================== *)
(** * Computations that may raise *)
(* ===================================================================== *)

(** A pure computation that may raise. *)
Definition Exc (A : Type) : Type := (exn + A)%type.

Definition exc_bind {A B : Type} (c : Exc A) (k : A -> Exc B) : Exc B :=
  match c with
  | inl e => inl e
  | inr a => k a
  end.

(** A computation over a mutable world [W]; the world survives a raise, so
    that what had already happened when the exception left is observable. *)
Definition M (W A : Type) : Type := W -> Exc A * W.

Definition ret {W A : Type} (a : A) : M W A := fun w => (inr a, w).

Definition raise {W A : Type} (e : exn) : M W A := fun w => (inl e, w).

Definition bind {W A B : Type} (c : M W A) (k : A -> M W B) : M W B :=
  fun w =>
    match c w with
    | (inl e, w') => (inl e, w')
    | (inr a, w') => k a w'
    end.

Definition lift_exc {W A : Type} (c : Exc A) : M W A := fun w => (c, w).

Declare Scope py_scope.
Delimit Scope py_scope with py.
Notation "x <- c ;; k" := (bind c (fun x => k))
  (at level 61, c at next level, right associativity) : py_scope.
Notation "c ;;; k" := (bind c (fun _ => k))
  (at level 61, right associativity) : py_scope.
Notation "x <~ c ;; k" := (exc_bind c (fun x => k))
  (at level 61, c at next level, right associativity) : py_scope.

(** Evaluate a rule at every index of a list, left to right, stopping at
    the first raise (how Pyomo constructs an indexed component). *)
Fixpoint mapE {A B : Type} (f : A -> Exc B) (l : list A) : Exc (list B) :=
  match l with
  | [] => inr []
  | x :: l' =>
      exc_bind (f x) (fun y =>
      exc_bind (mapE f l') (fun ys => inr (y :: ys)))
  end.

(* ===================================================================== *)
(** * translator_SX_leaching.py *)
(* ===================================================================== *)

Module Translator.

(** The two state blocks of a translator: [properties_in] (upstream, the
    solvent-extraction package) and [properties_out] (downstream, the
    leaching package). *)
Inductive Side : Type := properties_in | properties_out.

Definition Side_eqb (a b : Side) : bool :=
  match a, b with
  | properties_in, properties_in | properties_out, properties_out => true
  | _, _ => false
  end.

(** Units of [pyomo.environ.units] that the file mentions. *)
Inductive PyUnit : Type := mg | L.

(** Names of the constraint components that [build] declares (the names
    of the decorated rule functions). *)
Inductive CName : Type :=
| eq_flow_vol_rule
| eq_conc_mass_metals
| eq_conc_mass_water
| eq_conc_mass_acids.

Section Build.

(** Elements of [self.flowsheet().time]. *)
Variable Time : Type.

(** State variables of the two state blocks, indexed by time:
    [blk.properties_X[t].flow_vol] and
    [blk.properties_X[t].conc_mass_comp[i]]. *)
Inductive Var : Type :=
| flow_vol (s : Side) (t : Time)
| conc_mass_comp (s : Side) (t : Time) (i : string).

Definition side_of (v : Var) : Side :=
  match v with
  | flow_vol s _ => s
  | conc_mass_comp s _ _ => s
  end.

(** Pyomo expressions as far as the rules build them. *)
Inductive Expr : Type :=
| EVar (v : Var)
| ENum (x : float)
| EUnit (u : PyUnit)
| EMul (a b : Expr)
| EDiv (a b : Expr).

(** The relational expression [lhs == rhs] a rule returns. *)
Record Equality : Type := { lhs : Expr; rhs : Expr }.

(** One member of an indexed constraint: the index is the time point and,
    for the constraints indexed over a species set, the species. *)
Record ConstraintData : Type := {
  c_name : CName;
  c_time : Time;
  c_species : option string;
  c_body : Equality
}.

(** Components a block can hold.  [build] only ever declares sets and
    constraints. *)
Inductive Component : Type :=
| CSet (name : string) (members : list string)
| CVar (name : string)
| CConstraint (name : CName) (doc : string) (data : list ConstraintData).

(** What [super().build()] provides: per side, the component list of the
    property package, i.e. the index set of [conc_mass_comp]. *)
Record StateBlocks : Type := { component_list : Side -> list string }.

Variable sb : StateBlocks.

(** [i in component_list] *)
Definition has (s : Side) (i : string) : bool :=
  existsb (String.eqb i) (component_list sb s).

(** [blk.properties_X[t].conc_mass_comp[i]]: subscripting an indexed
    variable by an index outside its index set raises [KeyError]. *)
Definition getitem_conc_mass_comp (s : Side) (t : Time) (i : string)
  : Exc Expr :=
  if has s i
  then inr (EVar (conc_mass_comp s t i))
  else inl (KeyError i).

(** [blk.properties_X[t].flow_vol] *)
Definition getattr_flow_vol (s : Side) (t : Time) : Exc Expr :=
  inr (EVar (flow_vol s t)).

Local Open Scope py_scope.

(** The rule bodies.  Python evaluates the left operand of [==] first. *)
Definition eq_flow_vol_rule_body (t : Time) : Exc Equality :=
  l <~ getattr_flow_vol properties_out t ;;
  r <~ getattr_flow_vol properties_in t ;;
  inr {| lhs := l; rhs := r |}.

Definition eq_conc_mass_metals_body (t : Time) (i : string) : Exc Equality :=
  l <~ getitem_conc_mass_comp properties_out t i ;;
  r <~ getitem_conc_mass_comp properties_in t i ;;
  inr {| lhs := l; rhs := r |}.

Definition eq_conc_mass_water_body (t : Time) : Exc Equality :=
  l <~ getitem_conc_mass_comp properties_out t "H2O" ;;
  inr {| lhs := l; rhs := EDiv (EMul (ENum 1e6) (EUnit mg)) (EUnit L) |}.

Definition eq_conc_mass_acids_body (t : Time) (i : string) : Exc Equality :=
  l <~ getitem_conc_mass_comp properties_out t i ;;
  inr {| lhs := l; rhs := EDiv (EMul (ENum 1e-10) (EUnit mg)) (EUnit L) |}.

(** [self.metals] and [self.acids] *)
Definition metals : list string :=
  ["Al"; "Ca"; "Fe"; "Sc"; "Y"; "La"; "Ce"; "Pr"; "Nd"; "Sm"; "Gd"; "Dy"].

Definition acids : list string := ["H"; "HSO4"; "SO4"].

(** [@self.Constraint(time, ...)]: the rule is run at once for every index,
    in index order (time outermost). *)
Definition Constraint1 (n : CName) (time : list Time)
  (rule : Time -> Exc Equality) : Exc (list ConstraintData) :=
  mapE (fun t =>
          b <~ rule t ;;
          inr {| c_name := n; c_time := t; c_species := None; c_body := b |})
       time.

Definition Constraint2 (n : CName) (time : list Time) (idx : list string)
  (rule : Time -> string -> Exc Equality) : Exc (list ConstraintData) :=
  mapE (fun ti =>
          b <~ rule (fst ti) (snd ti) ;;
          inr {| c_name := n; c_time := fst ti; c_species := Some (snd ti);
                 c_body := b |})
       (list_prod time idx).

(** [TranslatorDataLeachingSX.build] from the point where [super().build()]
    has returned: the components the method adds to the block, in
    declaration order, or the exception that leaves it.  [super().build()]
    is IDAES' [TranslatorData.build], which is not part of this file; it
    creates the two state blocks [sb] over the time set [time] and does not
    return on an empty time set.  What is said of the whole method is
    therefore said for a time set with at least one point, or of a [build]
    that returned. *)
Definition build (time : list Time) : Exc (list Component) :=
  c1 <~ Constraint1 eq_flow_vol_rule time eq_flow_vol_rule_body ;;
  c2 <~ Constraint2 eq_conc_mass_metals time metals eq_conc_mass_metals_body ;;
  c3 <~ Constraint1 eq_conc_mass_water time eq_conc_mass_water_body ;;
  c4 <~ Constraint2 eq_conc_mass_acids time acids eq_conc_mass_acids_body ;;
  inr [ CConstraint eq_flow_vol_rule "Equality volumetric flow equation" c1;
        CSet "metals" metals;
        CConstraint eq_conc_mass_metals
          "Equality equation for metal components" c2;
        CConstraint eq_conc_mass_water "Equality equation for water" c3;
        CSet "acids" acids;
        CConstraint eq_conc_mass_acids
          "Equality equation for acid components" c4 ].

(** All constraint members of a block. *)
Fixpoint constraints_of (cs : list Component) : list ConstraintData :=
  match cs with
  | [] => []
  | CConstraint _ _ d :: cs' => d ++ constraints_of cs'
  | _ :: cs' => constraints_of cs'
  end.

(** The names of the variables a block declares itself. *)
Fixpoint declared_vars (cs : list Component) : list string :=
  match cs with
  | [] => []
  | CVar v :: cs' => v :: declared_vars cs'
  | _ :: cs' => declared_vars cs'
  end.

Fixpoint vars_of (e : Expr) : list Var :=
  match e with
  | EVar v => [v]
  | ENum _ | EUnit _ => []
  | EMul a b | EDiv a b => vars_of a ++ vars_of b
  end.

Definition vars_of_constraint (c : ConstraintData) : list Var :=
  vars_of (lhs (c_body c)) ++ vars_of (rhs (c_body c)).

Definition is_downstream (v : Var) : bool := Side_eqb (side_of v) properties_out.

Definition downstream_vars (c : ConstraintData) : list Var :=
  filter is_downstream (vars_of_constraint c).

(** The species each side is subscripted with by the rules: the metals
    on both sides, water and the acids downstream only. *)
Definition expected_on (s : Side) : list string :=
  match s with
  | properties_in => metals
  | properties_out => metals ++ "H2O" :: acids
  end.

(** The reference constants on the right-hand sides. *)
Definition water_reference : Expr :=
  EDiv (EMul (ENum 1e6) (EUnit mg)) (EUnit L).

Definition acid_reference : Expr :=
  EDiv (EMul (ENum 1e-10) (EUnit mg)) (EUnit L).

(** The constraint members by index, as they are when every subscript of
    the rule is valid. *)
Definition flow_vol_member (t : Time) : ConstraintData :=
  {| c_name := eq_flow_vol_rule; c_time := t; c_species := None;
     c_body := {| lhs := EVar (flow_vol properties_out t);
                  rhs := EVar (flow_vol properties_in t) |} |}.

Definition metals_member (ti : Time * string) : ConstraintData :=
  {| c_name := eq_conc_mass_metals; c_time := fst ti;
     c_species := Some (snd ti);
     c_body := {| lhs := EVar (conc_mass_comp properties_out (fst ti) (snd ti));
                  rhs := EVar (conc_mass_comp properties_in (fst ti) (snd ti)) |} |}.

Definition water_member (t : Time) : ConstraintData :=
  {| c_name := eq_conc_mass_water; c_time := t; c_species := None;
     c_body := {| lhs := EVar (conc_mass_comp properties_out t "H2O");
                  rhs := water_reference |} |}.

Definition acids_member (ti : Time * string) : ConstraintData :=
  {| c_name := eq_conc_mass_acids; c_time := fst ti;
     c_species := Some (snd ti);
     c_body := {| lhs := EVar (conc_mass_comp properties_out (fst ti) (snd ti));
                  rhs := acid_reference |} |}.

Definition members (time : list Time) : list ConstraintData :=
  map flow_vol_member time
  ++ map metals_member (list_prod time metals)
  ++ map water_member time
  ++ map acids_member (list_prod time acids).

(** The components of a block whose rules all returned. *)
Definition built (time : list Time) : list Component :=
  [ CConstraint eq_flow_vol_rule "Equality volumetric flow equation"
      (map flow_vol_member time);
    CSet "metals" metals;
    CConstraint eq_conc_mass_metals "Equality equation for metal components"
      (map metals_member (list_prod time metals));
    CConstraint eq_conc_mass_water "Equality equation for water"
      (map water_member time);
    CSet "acids" acids;
    CConstraint eq_conc_mass_acids "Equality equation for acid components"
      (map acids_member (list_prod time acids)) ].

(** Every species the rules subscript a side with is in that side's
    component list. *)
Definition all_present : Prop :=
  forall s i, In i (expected_on s) -> has s i = true.

End Build.

Arguments flow_vol {Time} s t.
Arguments conc_mass_comp {Time} s t i.
Arguments EVar {Time} v.
Arguments ENum {Time} x.
Arguments EUnit {Time} u.
Arguments EMul {Time} a b.
Arguments EDiv {Time} a b.
Arguments Build_Equality {Time} lhs rhs.
Arguments lhs {Time} e.
Arguments rhs {Time} e.
Arguments Build_ConstraintData {Time} c_name c_time c_species c_body.
Arguments c_name {Time} c.
Arguments c_time {Time} c.
Arguments c_species {Time} c.
Arguments c_body {Time} c.
Arguments CSet {Time} name members.
Arguments CVar {Time} name.
Arguments CConstraint {Time} name doc data.
Arguments side_of {Time} v.
Arguments getitem_conc_mass_comp {Time} sb s t i.
Arguments water_reference {Time}.
Arguments acid_reference {Time}.
Arguments flow_vol_member {Time} t.
Arguments metals_member {Time} ti.
Arguments water_member {Time} t.
Arguments acids_member {Time} ti.
Arguments members {Time} time.
Arguments built {Time} time.
Arguments getattr_flow_vol {Time} s t.
Arguments eq_flow_vol_rule_body {Time} t.
Arguments eq_conc_mass_metals_body {Time} sb t i.
Arguments eq_conc_mass_water_body {Time} sb t.
Arguments eq_conc_mass_acids_body {Time} sb t i.
Arguments Constraint1 {Time} n time rule.
Arguments Constraint2 {Time} n time idx rule.
Arguments build {Time} sb time.
Arguments constraints_of {Time} cs.
Arguments declared_vars {Time} cs.
Arguments vars_of {Time} e.
Arguments vars_of_constraint {Time} c.
Arguments is_downstream {Time} v.
Arguments downstream_vars {Time} c.

(** ** Meaning of the emitted equations

    An interpretation of expressions in any carrier [R] (the reals, floats,
    quantities with units): numbers, units, product and quotient are given,
    variables are read from a valuation. *)
Section Semantics.

Variable Time : Type.
Variable R : Type.
Variable num : float -> R.
Variable unit_value : PyUnit -> R.
Variable mul div : R -> R -> R.

Fixpoint eval (rho : Var Time -> R) (e : Expr Time) : R :=
  match e with
  | EVar v => rho v
  | ENum x => num x
  | EUnit u => unit_value u
  | EMul a b => mul (eval rho a) (eval rho b)
  | EDiv a b => div (eval rho a) (eval rho b)
  end.

(** A valuation satisfies a constraint when both sides are equal. *)
Definition holds (rho : Var Time -> R) (c : ConstraintData Time) : Prop :=
  eval rho (lhs (c_body c)) = eval rho (rhs (c_body c)).

Definition satisfies (rho : Var Time -> R) (cs : list (Component Time)) : Prop :=
  Forall (holds rho) (constraints_of cs).

End Semantics.

Arguments eval {Time R} num unit_value mul div rho e.
Arguments holds {Time R} num unit_value mul div rho c.
Arguments satisfies {Time R} num unit_value mul div rho cs.

(** ** [initialize_build] *)

(** What [initialize_build] does to its surroundings, in order. *)
Inductive Event (Flags : Type) : Type :=
| EvInitialize (s : Side) (hold_state : bool)
| EvSolve
| EvReleaseState (flags : Flags)
| EvLogInfo (msg : string).

Arguments EvInitialize {Flags} s hold_state.
Arguments EvSolve {Flags}.
Arguments EvReleaseState {Flags} flags.
Arguments EvLogInfo {Flags} msg.

Definition is_release {Flags : Type} (e : Event Flags) : bool :=
  match e with EvReleaseState _ => true | _ => false end.

Definition is_solve {Flags : Type} (e : Event Flags) : bool :=
  match e with EvSolve => true | _ => false end.

(** The mutable surroundings: the Pyomo model the block belongs to (values,
    fixed flags, ...) and the calls and log lines so far. *)
Record World (Model Flags : Type) : Type := {
  model : Model;
  events : list (Event Flags)
}.

Arguments Build_World {Model Flags} model events.
Arguments model {Model Flags} w.
Arguments events {Model Flags} w.

(** The collaborators of [initialize_build].  Each call works on the model
    in place and either returns or raises. *)
Record Env (Model Flags Results Solver StateArgs OutLvl OptArg SolverArg : Type)
  : Type := {
  (** [self.name] *)
  name : string;
  (** [get_solver(solver, optarg)] *)
  get_solver : option SolverArg -> option OptArg -> Exc Solver;
  (** [self.properties_in.initialize(outlvl, optarg, solver, state_args,
      hold_state)] returns the flags *)
  properties_in_initialize :
    OutLvl -> option OptArg -> option SolverArg -> option StateArgs -> bool ->
    Model -> Exc Flags * Model;
  (** [self.properties_out.initialize(outlvl, optarg, solver, state_args)] *)
  properties_out_initialize :
    OutLvl -> option OptArg -> option SolverArg -> option StateArgs ->
    Model -> Exc unit * Model;
  (** [degrees_of_freedom(self)] reads the model *)
  degrees_of_freedom : Model -> Z;
  (** [opt.solve(self, tee)] *)
  opt_solve : Solver -> Model -> Exc Results * Model;
  (** [self.properties_in.release_state(flags, outlvl)] *)
  properties_in_release_state : Flags -> OutLvl -> Model -> Exc unit * Model;
  (** [check_optimal_termination(res)] *)
  check_optimal_termination : Results -> bool;
  (** [idaeslog.condition(res)] *)
  condition : Results -> string
}.

Arguments name {Model Flags Results Solver StateArgs OutLvl OptArg SolverArg} e.
Arguments get_solver
  {Model Flags Results Solver StateArgs OutLvl OptArg SolverArg} e.
Arguments properties_in_initialize
  {Model Flags Results Solver StateArgs OutLvl OptArg SolverArg} e.
Arguments properties_out_initialize
  {Model Flags Results Solver StateArgs OutLvl OptArg SolverArg} e.
Arguments degrees_of_freedom
  {Model Flags Results Solver StateArgs OutLvl OptArg SolverArg} e.
Arguments opt_solve
  {Model Flags Results Solver StateArgs OutLvl OptArg SolverArg} e.
Arguments properties_in_release_state
  {Model Flags Results Solver StateArgs OutLvl OptArg SolverArg} e.
Arguments check_optimal_termination
  {Model Flags Results Solver StateArgs OutLvl OptArg SolverArg} e.
Arguments condition
  {Model Flags Results Solver StateArgs OutLvl OptArg SolverArg} e.

Section InitializeBuild.

Context {Model Flags Results Solver StateArgs OutLvl OptArg SolverArg : Type}.
Variable E : Env Model Flags Results Solver StateArgs OutLvl OptArg SolverArg.

Local Open Scope py_scope.

Let W : Type := World Model Flags.

(** A call of a collaborator: it is recorded, then it works on the model. *)
Definition call {A : Type} (ev : Event Flags) (f : Model -> Exc A * Model)
  : M W A :=
  fun w =>
    let (r, m') := f (model w) in
    (r, {| model := m'; events := events w ++ [ev] |}).

(** Reading the model. *)
Definition query {A : Type} (f : Model -> A) : M W A :=
  fun w => (inr (f (model w)), w).

(** [init_log.info(msg)] *)
Definition log_info (msg : string) : M W unit :=
  fun w => (inr tt, {| model := model w; events := events w ++ [EvLogInfo msg] |}).

Definition dof_message (n : Z) : string :=
  (name E ++ " degrees of freedom were not 0 at the beginning "
     ++ "of initialization. DoF = " ++ str_int n)%string.

Definition failed_message : string :=
  (name E ++ " failed to initialize successfully. Please check "
     ++ "the output logs for more information.")%string.

(** [TranslatorDataLeachingSX.initialize_build].  The set-up of the
    loggers ([getInitLogger], the [solver_log] context manager around the
    solve) has no bearing on control flow and is left out; the one log line
    the method writes itself is kept.  [degrees_of_freedom(self)] is
    evaluated once for the test and once more for the message, as in the
    source. *)
Definition initialize_build
  (state_args_in state_args_out : option StateArgs) (outlvl : OutLvl)
  (solver : option SolverArg) (optarg : option OptArg) : M W unit :=
  opt <- lift_exc (get_solver E solver optarg) ;;
  flags <- call (EvInitialize properties_in true)
             (properties_in_initialize E
                outlvl optarg solver state_args_in true) ;;
  call (EvInitialize properties_out false)
    (properties_out_initialize E
       outlvl optarg solver state_args_out) ;;;
  dof <- query (degrees_of_freedom E) ;;
  (if negb (dof =? 0)
   then dof' <- query (degrees_of_freedom E) ;;
        raise (Exception_ (dof_message dof'))
   else ret tt) ;;;
  res <- call EvSolve (opt_solve E opt) ;;
  call (EvReleaseState flags)
    (properties_in_release_state E flags outlvl) ;;;
  log_info ("Initialization Complete: " ++ condition E res)%string ;;;
  if negb (check_optimal_termination E res)
  then raise (InitializationError failed_message)
  else ret tt.

(** Both state blocks were initialized, starting from the world [w]: the
    solver was obtained, [properties_in.initialize] returned the flags and
    left the model [m1], and [properties_out.initialize] returned and left
    the model [m2]. *)
Definition initialized_from
  (state_args_in state_args_out : option StateArgs) (outlvl : OutLvl)
  (solver : option SolverArg) (optarg : option OptArg)
  (w : W) (opt : Solver) (fl : Flags) (m1 m2 : Model) : Prop :=
  get_solver E solver optarg = inr opt
  /\ properties_in_initialize E outlvl optarg solver state_args_in true
       (model w) = (inr fl, m1)
  /\ properties_out_initialize E outlvl optarg solver state_args_out m1
     = (inr tt, m2).

End InitializeBuild.

End Translator.

(* ===================================================================== *)
(** * solve_diafiltration.py *)
(* ===================================================================== *)

Module SolveDiafiltration.

(** The keyword arguments of [DiafiltrationModel(...)]. *)
Record DiafiltrationArgs : Type := {
  NS : Z;
  NT : Z;
  solutes : list string;
  flux : PyNum;
  sieving_coefficient : dict PyNum;
  feed : dict PyNum;
  diafiltrate : dict PyNum;
  precipitate : bool;
  precipitate_yield : dict (dict PyNum)
}.

(** The calls [main] makes, in order, with their arguments. *)
Inductive Event (Model : Type) : Type :=
| EvDiafiltrationModel (a : DiafiltrationArgs)
| EvBuildFlowsheet (mixing : string)
| EvInitialize (m : Model) (mixing : string) (precipitate : bool)
| EvUnfixDof (m : Model) (mixing : string) (precipitate : bool)
| EvFixV (m : Model) (precipitator : string) (value : PyNum)
| EvReportStatistics (m : Model)
| EvSetR (m : Model) (value : PyNum)
| EvSolverFactory (solver_name : string)
| EvSolve (m : Model) (tee : bool)
| EvDisplay (m : Model) (what : string)
| EvReportValues (m : Model).

Arguments EvDiafiltrationModel {Model} a.
Arguments EvBuildFlowsheet {Model} mixing.
Arguments EvInitialize {Model} m mixing precipitate.
Arguments EvUnfixDof {Model} m mixing precipitate.
Arguments EvFixV {Model} m precipitator value.
Arguments EvReportStatistics {Model} m.
Arguments EvSetR {Model} m value.
Arguments EvSolverFactory {Model} solver_name.
Arguments EvSolve {Model} m tee.
Arguments EvDisplay {Model} m what.
Arguments EvReportValues {Model} m.

Definition is_solve {Model : Type} (e : Event Model) : bool :=
  match e with EvSolve _ _ => true | _ => false end.

(** The collaborators of [main]: the builtin [int], the model class of
    [diafiltration_flowsheet_model], IDAES' [report_statistics], Pyomo's
    [SolverFactory] and solver, and [utils.report_values].  Methods that
    work on the Pyomo model in place return the model as they leave it. *)
Record Env (DF Model Solver Results : Type) : Type := {
  (** [int(s)] on a string *)
  int_ : string -> Exc Z;
  DiafiltrationModel : DiafiltrationArgs -> Exc DF;
  (** [df.build_flowsheet(mixing)] *)
  build_flowsheet : DF -> string -> Exc Model;
  (** [df.initialize(m, mixing, precipitate)] *)
  initialize : DF -> Model -> string -> bool -> Exc Model;
  (** [df.unfix_dof(m, mixing, precipitate)] *)
  unfix_dof : DF -> Model -> string -> bool -> Exc Model;
  (** [m.fs.precipitator[key].V.fix(value)] *)
  precipitator_V_fix : string -> PyNum -> Model -> Exc Model;
  report_statistics : Model -> Exc unit;
  (** [m.R = value] *)
  set_R : PyNum -> Model -> Exc Model;
  SolverFactory : string -> Exc Solver;
  (** [solver.solve(m, tee)] *)
  solve : Solver -> Model -> bool -> Exc (Results * Model);
  (** [m.<what>.display()] *)
  display : string -> Model -> Exc unit;
  (** [utils.report_values(m)] *)
  report_values : Model -> Exc unit
}.

Arguments int_ {DF Model Solver Results} e.
Arguments DiafiltrationModel {DF Model Solver Results} e.
Arguments build_flowsheet {DF Model Solver Results} e.
Arguments initialize {DF Model Solver Results} e.
Arguments unfix_dof {DF Model Solver Results} e.
Arguments precipitator_V_fix {DF Model Solver Results} e.
Arguments report_statistics {DF Model Solver Results} e.
Arguments set_R {DF Model Solver Results} e.
Arguments SolverFactory {DF Model Solver Results} e.
Arguments solve {DF Model Solver Results} e.
Arguments display {DF Model Solver Results} e.
Arguments report_values {DF Model Solver Results} e.

(** [l[i]] on a Python list, for [i >= 0]. *)
Definition list_getitem (l : list string) (i : nat) : Exc string :=
  match nth_error l i with
  | Some x => inr x
  | None => inl (IndexError "list index out of range")
  end.

(** The literals of [main]. *)
Definition main_solutes : list string := ["Li"; "Co"].

Definition main_flux : PyNum := PyFloat 0.1.

Definition main_sieving_coefficient : dict PyNum :=
  [("Li", PyFloat 1.3); ("Co", PyFloat 0.5)].

Definition main_feed : dict PyNum :=
  [("solvent", PyInt 100);
   ("Li", py_mul (PyFloat 1.7) (PyInt 100));
   ("Co", py_mul (PyInt 17) (PyInt 100))].

Definition main_diaf : dict PyNum :=
  [("solvent", PyInt 30);
   ("Li", py_mul (PyFloat 0.1) (PyInt 30));
   ("Co", py_mul (PyFloat 0.2) (PyInt 30))].

Definition main_precipitate_yield : dict (dict PyNum) :=
  [("permeate", [("Li", PyFloat 0.81); ("Co", PyFloat 0.01)]);
   ("retentate", [("Li", PyFloat 0.20); ("Co", PyFloat 0.89)])].

(** The keyword arguments of the [DiafiltrationModel(...)] call of [main]. *)
Definition diafiltration_args (num_s num_t : Z) (prec : bool)
  : DiafiltrationArgs :=
  {| NS := num_s;
     NT := num_t;
     solutes := main_solutes;
     flux := main_flux;
     sieving_coefficient := main_sieving_coefficient;
     feed := main_feed;
     diafiltrate := main_diaf;
     precipitate := prec;
     precipitate_yield := main_precipitate_yield |}.

Section Main.

Context {DF Model Solver Results : Type}.
Variable E : Env DF Model Solver Results.

Local Open Scope py_scope.

Let Trace : Type := list (Event Model).

(** A call of a collaborator: it is recorded, then it returns or raises. *)
Definition call {A : Type} (ev : Event Model) (c : Exc A) : M Trace A :=
  fun tr => (c, tr ++ [ev]).

Definition main (argv : list string) : M Trace unit :=
  let args := tl argv in
  mix_style <- lift_exc (list_getitem args 0) ;;
  a1 <- lift_exc (list_getitem args 1) ;;
  num_s <- lift_exc (int_ E a1) ;;
  a2 <- lift_exc (list_getitem args 2) ;;
  num_t <- lift_exc (int_ E a2) ;;
  let prec := true in
  let df_args := diafiltration_args num_s num_t prec in
  df <- call (EvDiafiltrationModel df_args) (DiafiltrationModel E df_args) ;;
  let mixing := mix_style in
  m <- call (EvBuildFlowsheet mixing) (build_flowsheet E df mixing) ;;
  m <- call (EvInitialize m mixing prec) (initialize E df m mixing prec) ;;
  m <- call (EvUnfixDof m mixing prec) (unfix_dof E df m mixing prec) ;;
  m <- call (EvFixV m "retentate" (PyInt 500))
         (precipitator_V_fix E "retentate" (PyInt 500) m) ;;
  m <- call (EvFixV m "permeate" (PyInt 500))
         (precipitator_V_fix E "permeate" (PyInt 500) m) ;;
  call (EvReportStatistics m) (report_statistics E m) ;;;
  m <- call (EvSetR m (PyFloat 0.8)) (set_R E (PyFloat 0.8) m) ;;
  solver <- call (EvSolverFactory "ipopt") (SolverFactory E "ipopt") ;;
  rm <- call (EvSolve m true) (solve E solver m true) ;;
  let m := snd rm in
  call (EvDisplay m "prec_perc_co") (display E "prec_perc_co" m) ;;;
  call (EvDisplay m "prec_perc_li") (display E "prec_perc_li" m) ;;;
  call (EvReportValues m) (report_values E m).

(** A run of the script: how [main] leaves and the calls it made. *)
Definition outcome (argv : list string) : Exc unit := fst (main argv []).

Definition calls_of (argv : list string) : list (Event Model) :=
  snd (main argv []).

End Main.


End SolveDiafiltration.

(* ===================================================================== *)
(** * Concrete collaborators *)
(* ===================================================================== *)

(** Small executable stand-ins for the collaborators, on which the
    embedding can be run. *)
Module Demo.

Import Translator.

(** A steady-state flowsheet: one time point. *)
Definition time : list Z := [0].

(** An upstream package with the metals and water, a downstream package
    with the metals, water and the acid species. *)
Definition blocks : StateBlocks :=
  {| component_list := fun s =>
       match s with
       | properties_in => metals ++ ["H2O"]
       | properties_out => "H2O" :: "H" :: "HSO4" :: "SO4" :: metals
       end |}.

(** The same, but scandium is not tracked upstream. *)
Definition blocks_without_Sc : StateBlocks :=
  {| component_list := fun s =>
       match s with
       | properties_in =>
           ["Al"; "Ca"; "Fe"; "Y"; "La"; "Ce"; "Pr"; "Nd"; "Sm"; "Gd"; "Dy";
            "H2O"]
       | properties_out => "H2O" :: "H" :: "HSO4" :: "SO4" :: metals
       end |}.

(** A model that knows its degree-of-freedom count and whether the inlet
    state is held fixed. *)
Record ToyModel : Type := { dof : Z; inlet_fixed : bool }.

(** A translator whose solver reports the given status. *)
Definition translator_env (optimal : bool)
  : Translator.Env ToyModel unit bool unit unit unit unit unit :=
  {| name := "fs.translator";
     get_solver := fun _ _ => inr tt;
     properties_in_initialize := fun _ _ _ _ hold m =>
       (inr tt, {| dof := dof m; inlet_fixed := hold |});
     properties_out_initialize := fun _ _ _ _ m => (inr tt, m);
     degrees_of_freedom := dof;
     opt_solve := fun _ m => (inr optimal, m);
     properties_in_release_state := fun _ _ m =>
       (inr tt, {| dof := dof m; inlet_fixed := false |});
     check_optimal_termination := fun b => b;
     condition := fun b => if b then "optimal" else "infeasible" |}.

Definition world (n : Z) : World ToyModel unit :=
  {| model := {| dof := n; inlet_fixed := false |}; events := [] |}.

(** A decimal reading of a string, standing for [int]. *)
Definition demo_int (s : string) : Exc Z :=
  match s, NilZero.int_of_string s with
  | EmptyString, _ | _, None =>
      inl (ValueError "invalid literal for int() with base 10")
  | _, Some i => inr (Z.of_int i)
  end.

(** A diafiltration model class whose Pyomo model is its degree-of-freedom
    count: [unfix_dof] frees three variables, each [fix] removes one, and
    the solver returns whether it terminated optimally. *)
Definition degrees_of_freedom (m : Z) : Z := m.

Definition check_optimal_termination (res : bool) : bool := res.

Definition main_env (optimal : bool)
  : SolveDiafiltration.Env SolveDiafiltration.DiafiltrationArgs Z unit bool :=
  {| SolveDiafiltration.int_ := demo_int;
     SolveDiafiltration.DiafiltrationModel := fun a => inr a;
     SolveDiafiltration.build_flowsheet := fun _ _ => inr 0;
     SolveDiafiltration.initialize := fun _ m _ _ => inr m;
     SolveDiafiltration.unfix_dof := fun _ m _ _ => inr (m + 3);
     SolveDiafiltration.precipitator_V_fix := fun _ _ m => inr (m - 1);
     SolveDiafiltration.report_statistics := fun _ => inr tt;
     SolveDiafiltration.set_R := fun _ m => inr m;
     SolveDiafiltration.SolverFactory := fun _ => inr tt;
     SolveDiafiltration.solve := fun _ m _ => inr (optimal, m);
     SolveDiafiltration.display := fun _ _ => inr tt;
     SolveDiafiltration.report_values := fun _ => inr tt |}.

Definition argv : list string :=
  ["solve_diafiltration.py"; "mix"; "2"; "10"].

End Demo.

(* ===================================================================== *)
(** * Derived notions used to describe the behaviour of the two files *)
(* ===================================================================== *)

Module TranslatorAux.

Import Translator.

(** The species named by the [KeyError] of [build], if any: the rules are
    constructed in the order metals, water, acids, each over its index
    set in order. *)
Definition first_missing (sb : StateBlocks) : option string :=
  match find (fun i => negb (has sb properties_out i
                             && has sb properties_in i)) metals with
  | Some k => Some k
  | None =>
      if negb (has sb properties_out "H2O") then Some "H2O"
      else find (fun i => negb (has sb properties_out i)) acids
  end.

(** Carrying an upstream state over to the downstream side as the
    equations of [build] prescribe; every other variable keeps its
    value. *)
Definition propagate {Time R : Type} (num : float -> R)
  (unit_value : PyUnit -> R) (mul div : R -> R -> R)
  (rho : Var Time -> R) (v : Var Time) : R :=
  match v with
  | flow_vol properties_out t => rho (flow_vol properties_in t)
  | conc_mass_comp properties_out t i =>
      if existsb (String.eqb i) metals
      then rho (conc_mass_comp properties_in t i)
      else if String.eqb i "H2O"
      then eval num unit_value mul div rho water_reference
      else if existsb (String.eqb i) acids
      then eval num unit_value mul div rho acid_reference
      else rho v
  | _ => rho v
  end.

End TranslatorAux.

Module MainAux.

Import SolveDiafiltration.

(** The callee of a recorded call. *)
Definition call_name {Model : Type} (e : Event Model) : string :=
  match e with
  | EvDiafiltrationModel _ => "DiafiltrationModel"
  | EvBuildFlowsheet _ => "build_flowsheet"
  | EvInitialize _ _ _ => "initialize"
  | EvUnfixDof _ _ _ => "unfix_dof"
  | EvFixV _ k _ => "precipitator[" ++ k ++ "].V.fix"
  | EvReportStatistics _ => "report_statistics"
  | EvSetR _ _ => "R"
  | EvSolverFactory _ => "SolverFactory"
  | EvSolve _ _ => "solve"
  | EvDisplay _ w => w ++ ".display"
  | EvReportValues _ => "report_values"
  end%string.

(** The callees of [main] in the order of the source text. *)
Definition main_call_order : list string :=
  ["DiafiltrationModel"; "build_flowsheet"; "initialize"; "unfix_dof";
   "precipitator[retentate].V.fix"; "precipitator[permeate].V.fix";
   "report_statistics"; "R"; "SolverFactory"; "solve";
   "prec_perc_co.display"; "prec_perc_li.display"; "report_values"].

End MainAux.

(** Collaborators that raise. *)
Module FailingDemo.

Import Translator.

(** A translator whose [n]-th collaborator call raises: 0 [get_solver],
    1 the inlet [initialize], 2 the outlet [initialize], 3 the solve,
    4 [release_state]; any other [n] raises nowhere.  The solve, when it
    returns, reports an infeasible problem. *)
Definition translator_env (n : nat)
  : Translator.Env Demo.ToyModel unit bool unit unit unit unit unit :=
  {| name := "fs.translator";
     get_solver := fun _ _ =>
       if Nat.eqb n 0 then inl (ExternalError "get_solver") else inr tt;
     properties_in_initialize := fun _ _ _ _ hold m =>
       (if Nat.eqb n 1 then inl (ExternalError "properties_in.initialize")
        else inr tt,
        {| Demo.dof := Demo.dof m; Demo.inlet_fixed := hold |});
     properties_out_initialize := fun _ _ _ _ m =>
       (if Nat.eqb n 2 then inl (ExternalError "properties_out.initialize")
        else inr tt, m);
     degrees_of_freedom := Demo.dof;
     opt_solve := fun _ m =>
       (if Nat.eqb n 3 then inl (ExternalError "solve") else inr false, m);
     properties_in_release_state := fun _ _ m =>
       if Nat.eqb n 4 then (inl (ExternalError "release_state"), m)
       else (inr tt, {| Demo.dof := Demo.dof m; Demo.inlet_fixed := false |});
     check_optimal_termination := fun b => b;
     condition := fun b => if b then "optimal" else "infeasible" |}.

(** A diafiltration set-up whose solver raises. *)
Definition main_env
  : SolveDiafiltration.Env SolveDiafiltration.DiafiltrationArgs Z unit bool :=
  {| SolveDiafiltration.int_ := Demo.demo_int;
     SolveDiafiltration.DiafiltrationModel := fun a => inr a;
     SolveDiafiltration.build_flowsheet := fun _ _ => inr 0;
     SolveDiafiltration.initialize := fun _ m _ _ => inr m;
     SolveDiafiltration.unfix_dof := fun _ m _ _ => inr (m + 3);
     SolveDiafiltration.precipitator_V_fix := fun _ _ m => inr (m - 1);
     SolveDiafiltration.report_statistics := fun _ => inr tt;
     SolveDiafiltration.set_R := fun _ m => inr m;
     SolveDiafiltration.SolverFactory := fun _ => inr tt;
     SolveDiafiltration.solve := fun _ _ _ => inl (ExternalError "ipopt");
     SolveDiafiltration.display := fun _ _ => inr tt;
     SolveDiafiltration.report_values := fun _ => inr tt |}.

(** Component lists in which scandium is missing upstream and water and
    sulfate are missing downstream. *)
Definition blocks_with_gaps : StateBlocks :=
  {| component_list := fun s =>
       match s with
       | properties_in =>
           ["Al"; "Ca"; "Fe"; "Y"; "La"; "Ce"; "Pr"; "Nd"; "Sm"; "Gd"; "Dy"]
       | properties_out => "H" :: "HSO4" :: metals
       end |}.

(** Component lists in which only sulfate is missing downstream; the
    upstream side tracks nothing but the metals. *)
Definition blocks_without_SO4 : StateBlocks :=
  {| component_list := fun s =>
       match s with
       | properties_in => metals
       | properties_out => "H2O" :: "H" :: "HSO4" :: metals
       end |}.

End FailingDemo.

(* ===================================================================== *)
(** * Facts about indexed construction *)
(* ===================================================================== *)

Section MapE.

Context {A B : Type}.
Variable f : A -> Exc B.
Variable okb : A -> bool.
Variable g : A -> B.
Variable err : A -> exn.
Hypothesis f_cases : forall x, f x = if okb x then inr (g x) else inl (err x).

(** Constructing an indexed component either raises at the first index
    whose rule raises, or yields one member per index, in order. *)
Lemma mapE_find (l : list A) :
  mapE f l =
  match find (fun x => negb (okb x)) l with
  | Some x => inl (err x)
  | None => inr (map g l)
  end.
Proof.
  induction l as [|x l IH]; simpl; [reflexivity|].
  rewrite f_cases. destruct (okb x); simpl; [|reflexivity].
  rewrite IH. destruct (find _ l); reflexivity.
Qed.

Lemma mapE_inl (l : list A) (e : exn) :
  mapE f l = inl e -> exists x, In x l /\ okb x = false /\ e = err x.
Proof.
  rewrite mapE_find. destruct (find _ l) as [x|] eqn:Hf; [|discriminate].
  intros [= <-]. apply find_some in Hf as [Hin Hx].
  exists x. repeat split; trivial. now destruct (okb x).
Qed.

Lemma mapE_inr (l : list A) (ys : list B) :
  mapE f l = inr ys -> ys = map g l /\ forall x, In x l -> okb x = true.
Proof.
  rewrite mapE_find. destruct (find _ l) as [x|] eqn:Hf; [discriminate|].
  intros [= <-]. split; [reflexivity|].
  intros x Hx. pose proof (find_none _ _ Hf x Hx) as H. cbv beta in H.
  now destruct (okb x).
Qed.

Lemma mapE_all_ok (l : list A) :
  (forall x, In x l -> okb x = true) -> mapE f l = inr (map g l).
Proof.
  intros H. rewrite mapE_find. destruct (find _ l) as [x|] eqn:Hf; [|reflexivity].
  apply find_some in Hf as [Hin Hx]. rewrite (H x Hin) in Hx. discriminate.
Qed.

End MapE.

Lemma NoDup_list_prod {A B : Type} (l : list A) (l' : list B) :
  NoDup l -> NoDup l' -> NoDup (list_prod l l').
Proof.
  intros Hl Hl'. induction Hl as [|a l Ha _ IH]; simpl; [constructor|].
  apply NoDup_app; trivial.
  - clear IH Ha. induction Hl' as [|b l' Hb _ IH]; simpl; constructor; trivial.
    rewrite in_map_iff. intros [b' [[= ->] Hin]]. contradiction.
  - intros [a' b'] H1 H2. apply in_map_iff in H1 as [b'' [[= <- <-] _]].
    apply in_prod_iff in H2 as [H2 _]. contradiction.
Qed.

(* ===================================================================== *)
(** * Properties of the translator's [build] *)
(* ===================================================================== *)

Module BuildFacts.

Import Translator.

Section WithBlocks.

Context {Time : Type}.
Variable sb : StateBlocks.

(** When each rule returns and when it raises. *)
Lemma flow_vol_step (t : Time) :
  exc_bind (eq_flow_vol_rule_body t)
    (fun b => inr (Build_ConstraintData eq_flow_vol_rule t None b))
  = if true then inr (flow_vol_member t) else inl (KeyError "").
Proof. reflexivity. Qed.

Lemma metals_step (ti : Time * string) :
  exc_bind (eq_conc_mass_metals_body sb (fst ti) (snd ti))
    (fun b => inr (Build_ConstraintData eq_conc_mass_metals (fst ti)
                     (Some (snd ti)) b))
  = if has sb properties_out (snd ti) && has sb properties_in (snd ti)
    then inr (metals_member ti) else inl (KeyError (snd ti)).
Proof.
  unfold eq_conc_mass_metals_body, getitem_conc_mass_comp.
  destruct (has sb properties_out (snd ti)), (has sb properties_in (snd ti));
    reflexivity.
Qed.

Lemma water_step (t : Time) :
  exc_bind (eq_conc_mass_water_body sb t)
    (fun b => inr (Build_ConstraintData eq_conc_mass_water t None b))
  = if has sb properties_out "H2O"
    then inr (water_member t) else inl (KeyError "H2O").
Proof.
  unfold eq_conc_mass_water_body, getitem_conc_mass_comp.
  destruct (has sb properties_out "H2O"); reflexivity.
Qed.

Lemma acids_step (ti : Time * string) :
  exc_bind (eq_conc_mass_acids_body sb (fst ti) (snd ti))
    (fun b => inr (Build_ConstraintData eq_conc_mass_acids (fst ti)
                     (Some (snd ti)) b))
  = if has sb properties_out (snd ti)
    then inr (acids_member ti) else inl (KeyError (snd ti)).
Proof.
  unfold eq_conc_mass_acids_body, getitem_conc_mass_comp.
  destruct (has sb properties_out (snd ti)); reflexivity.
Qed.

Lemma constraints_of_built (time : list Time) :
  constraints_of (built time) = members time.
Proof. unfold built, members. simpl. now rewrite app_nil_r. Qed.

Lemma build_inr (time : list Time) (cs : list (Component Time)) :
  build sb time = inr cs ->
  cs = built time /\ (time = [] \/ all_present sb).
Proof.
  unfold build, Constraint1, Constraint2.
  rewrite (mapE_find _ (fun _ => true) flow_vol_member
             (fun _ => KeyError "") flow_vol_step).
  rewrite (mapE_find _ _ _ _ metals_step).
  rewrite (mapE_find _ _ _ _ water_step).
  rewrite (mapE_find _ _ _ _ acids_step).
  unfold exc_bind.
  destruct (find _ time) as [?|] eqn:H1; cbv beta iota; [discriminate|].
  clear H1.
  destruct (find _ (list_prod time metals)) as [?|] eqn:H2; cbv beta iota;
    [discriminate|].
  destruct (find _ time) as [?|] eqn:H3; cbv beta iota; [discriminate|].
  destruct (find _ (list_prod time acids)) as [?|] eqn:H4; cbv beta iota;
    [discriminate|].
  intros [= <-]. split; [reflexivity|].
  destruct time as [|t0 time']; [now left|right].
  assert (Hm : forall i, In i metals ->
            has sb properties_out i = true /\ has sb properties_in i = true).
  { intros i Hi.
    assert (Hin : In (t0, i) (list_prod (t0 :: time') metals))
      by (apply in_prod_iff; split; [now left|exact Hi]).
    pose proof (find_none _ _ H2 _ Hin) as H. cbv beta in H. cbn [snd] in H.
    now apply negb_false_iff, andb_true_iff in H. }
  assert (Hw : has sb properties_out "H2O" = true).
  { pose proof (find_none _ _ H3 t0 (or_introl eq_refl)) as H.
    now apply negb_false_iff in H. }
  assert (Ha : forall i, In i acids -> has sb properties_out i = true).
  { intros i Hi.
    assert (Hin : In (t0, i) (list_prod (t0 :: time') acids))
      by (apply in_prod_iff; split; [now left|exact Hi]).
    pose proof (find_none _ _ H4 _ Hin) as H. cbv beta in H. cbn [snd] in H.
    now apply negb_false_iff in H. }
  intros [|] i Hi; unfold expected_on in Hi.
  - now apply Hm.
  - apply in_app_or in Hi as [Hi|[<-|Hi]]; [now apply Hm|exact Hw|now apply Ha].
Qed.

Lemma build_inl (time : list Time) (e : exn) :
  build sb time = inl e ->
  exists k s, e = KeyError k /\ In k (expected_on s) /\ has sb s k = false.
Proof.
  unfold build, Constraint1, Constraint2.
  rewrite (mapE_find _ (fun _ => true) flow_vol_member
             (fun _ => KeyError "") flow_vol_step).
  rewrite (mapE_find _ _ _ _ metals_step).
  rewrite (mapE_find _ _ _ _ water_step).
  rewrite (mapE_find _ _ _ _ acids_step).
  unfold exc_bind.
  destruct (find _ time) as [?|] eqn:H1.
  { apply find_some in H1 as [_ H1]. discriminate. }
  cbv beta iota. clear H1.
  destruct (find _ (list_prod time metals)) as [[t i]|] eqn:H2.
  { simpl. intros [= <-]. apply find_some in H2 as [Hin H2]. simpl in H2.
    apply in_prod_iff in Hin as [_ Hin].
    apply negb_true_iff, andb_false_iff in H2 as [H2|H2].
    - exists i, properties_out. repeat split; trivial.
      unfold expected_on. apply in_or_app. now left.
    - exists i, properties_in. repeat split; trivial. }
  cbv beta iota.
  destruct (find _ time) as [t|] eqn:H3.
  { simpl. intros [= <-]. apply find_some in H3 as [_ H3].
    apply negb_true_iff in H3.
    exists "H2O", properties_out. repeat split; trivial.
    unfold expected_on. apply in_or_app. right. now left. }
  cbv beta iota.
  destruct (find _ (list_prod time acids)) as [[t i]|] eqn:H4; [|discriminate].
  simpl. intros [= <-]. apply find_some in H4 as [Hin H4]. simpl in H4.
  apply in_prod_iff in Hin as [_ Hin]. apply negb_true_iff in H4.
  exists i, properties_out. repeat split; trivial.
  unfold expected_on. apply in_or_app. right. now right.
Qed.

(** [build] returns whenever the component lists cover what the rules
    subscript. *)
Lemma build_succeeds (time : list Time) :
  all_present sb -> build sb time = inr (built time).
Proof.
  intros Hall. destruct (build sb time) as [e|cs] eqn:Hb.
  - apply build_inl in Hb as (k & s & _ & Hin & Hk).
    rewrite (Hall s k Hin) in Hk. discriminate.
  - apply build_inr in Hb as [-> _]. reflexivity.
Qed.


(** Every emitted member comes from one of the four rules. *)
Lemma member_cases (time : list Time) (c : ConstraintData Time) :
  In c (members time) ->
  (exists t, In t time /\ c = flow_vol_member t)
  \/ (exists t i, In t time /\ In i metals /\ c = metals_member (t, i))
  \/ (exists t, In t time /\ c = water_member t)
  \/ (exists t i, In t time /\ In i acids /\ c = acids_member (t, i)).
Proof.
  unfold members. rewrite !in_app_iff, !in_map_iff.
  intros [H|[H|[H|H]]].
  - destruct H as (t & <- & Ht). left. eauto.
  - destruct H as ([t i] & <- & Hti). apply in_prod_iff in Hti as [Ht Hi].
    right; left. eauto.
  - destruct H as (t & <- & Ht). right; right; left. eauto.
  - destruct H as ([t i] & <- & Hti). apply in_prod_iff in Hti as [Ht Hi].
    right; right; right. eauto.
Qed.

Lemma flow_vol_member_in (time : list Time) (t : Time) :
  In t time -> In (flow_vol_member t) (members time).
Proof.
  intros Ht. unfold members. rewrite !in_app_iff. left. now apply in_map.
Qed.

Lemma metals_member_in (time : list Time) (t : Time) (i : string) :
  In t time -> In i metals -> In (metals_member (t, i)) (members time).
Proof.
  intros Ht Hi. unfold members. rewrite !in_app_iff. right; left.
  apply in_map, in_prod_iff. now split.
Qed.

Lemma water_member_in (time : list Time) (t : Time) :
  In t time -> In (water_member t) (members time).
Proof.
  intros Ht. unfold members. rewrite !in_app_iff. right; right; left.
  now apply in_map.
Qed.

Lemma acids_member_in (time : list Time) (t : Time) (i : string) :
  In t time -> In i acids -> In (acids_member (t, i)) (members time).
Proof.
  intros Ht Hi. unfold members. rewrite !in_app_iff. right; right; right.
  apply in_map, in_prod_iff. now split.
Qed.

(** The species sets do not overlap. *)
Lemma water_not_metal : ~ In "H2O" metals.
Proof. unfold metals. simpl. intuition discriminate. Qed.

Lemma acid_not_metal (i : string) : In i acids -> ~ In i metals.
Proof.
  unfold acids, metals. simpl.
  intros [<-|[<-|[<-|[]]]]; intuition discriminate.
Qed.

Lemma water_not_acid : ~ In "H2O" acids.
Proof. unfold acids. simpl. intuition discriminate. Qed.

(** Each member has exactly one downstream variable. *)
Lemma downstream_vars_member (time : list Time) (c : ConstraintData Time) :
  In c (members time) ->
  (exists t, In t time /\ c = flow_vol_member t
             /\ downstream_vars c = [flow_vol properties_out t])
  \/ (exists t i, In t time /\ In i (metals ++ "H2O" :: acids)
                  /\ downstream_vars c = [conc_mass_comp properties_out t i]
                  /\ (In i metals -> c = metals_member (t, i))).
Proof.
  intros H. apply member_cases in H as [H|[H|[H|H]]].
  - destruct H as (t & Ht & ->). left. exists t. auto.
  - destruct H as (t & i & Ht & Hi & ->). right. exists t, i.
    repeat split; auto. apply in_or_app. now left.
  - destruct H as (t & Ht & ->). right. exists t, "H2O".
    repeat split; auto.
    + apply in_or_app. right. now left.
    + intros F. now apply water_not_metal in F.
  - destruct H as (t & i & Ht & Hi & ->). right. exists t, i.
    repeat split; auto.
    + apply in_or_app. right. now right.
    + intros F. now apply acid_not_metal in F.
Qed.

Lemma NoDup_metals : NoDup metals.
Proof. unfold metals. repeat constructor; simpl; intuition discriminate. Qed.

Lemma NoDup_acids : NoDup acids.
Proof. unfold acids. repeat constructor; simpl; intuition discriminate. Qed.

Lemma NoDup_map_injective {A B : Type} (f : A -> B) (l : list A) :
  (forall x y, f x = f y -> x = y) -> NoDup l -> NoDup (map f l).
Proof.
  intros Hf. apply NoDup_map_NoDup_ForallPairs. intros x y _ _. apply Hf.
Qed.

(** No downstream variable is constrained twice. *)
Lemma NoDup_downstream (time : list Time) :
  NoDup time -> NoDup (flat_map downstream_vars (members time)).
Proof.
  intros Ht.
  assert (Hmap : forall (A : Type) (f : A -> ConstraintData Time)
                   (v : A -> Var Time) (l : list A),
             (forall x, downstream_vars (f x) = [v x]) ->
             flat_map downstream_vars (map f l) = map v l).
  { intros A f v l Hf. induction l as [|x l IH]; simpl; [reflexivity|].
    now rewrite Hf, IH. }
  unfold members. rewrite !flat_map_app.
  rewrite (Hmap _ flow_vol_member (flow_vol properties_out)) by reflexivity.
  rewrite (Hmap _ metals_member
             (fun ti => conc_mass_comp properties_out (fst ti) (snd ti)))
    by reflexivity.
  rewrite (Hmap _ water_member
             (fun t => conc_mass_comp properties_out t "H2O")) by reflexivity.
  rewrite (Hmap _ acids_member
             (fun ti => conc_mass_comp properties_out (fst ti) (snd ti)))
    by reflexivity.
  clear Hmap.
  assert (Hprod : forall l, NoDup l ->
            NoDup (map (fun ti : Time * string =>
                          conc_mass_comp properties_out (fst ti) (snd ti))
                     (list_prod time l))).
  { intros l Hl. apply NoDup_map_injective.
    - intros [t i] [t' i']. simpl. now intros [= -> ->].
    - now apply NoDup_list_prod. }
  apply NoDup_app; [| apply NoDup_app; [| apply NoDup_app |] |].
  - apply NoDup_map_injective; trivial. now intros t t' [= ->].
  - apply Hprod, NoDup_metals.
  - apply NoDup_map_injective; trivial. now intros t t' [= ->].
  - apply Hprod, NoDup_acids.
  - intros v Hw Ha. apply in_map_iff in Hw as (t & <- & _).
    apply in_map_iff in Ha as ([t' i] & [= _ ->] & Hi).
    apply in_prod_iff in Hi as [_ Hi]. now apply water_not_acid in Hi.
  - intros v Hm Hr. apply in_map_iff in Hm as ([t i] & <- & Hi).
    apply in_prod_iff in Hi as [_ Hi]. simpl in Hr.
    apply in_app_or in Hr as [Hr|Hr].
    + apply in_map_iff in Hr as (t' & [= _ <-] & _).
      now apply water_not_metal in Hi.
    + apply in_map_iff in Hr as ([t' i'] & [= _ ->] & Hi').
      apply in_prod_iff in Hi' as [_ Hi']. now apply acid_not_metal in Hi'.
  - intros v Hf Hr. apply in_map_iff in Hf as (t & <- & _).
    rewrite !in_app_iff, !in_map_iff in Hr.
    destruct Hr as [(x & Hx & _)|[(x & Hx & _)|(x & Hx & _)]]; discriminate.
Qed.

(** C1.  When [build] returns, then for every time point [t] the block
    holds: for each of the twelve metals the member
    [properties_out[t].conc_mass_comp[i] == properties_in[t].conc_mass_comp[i]];
    for each of H, HSO4, SO4 the member
    [properties_out[t].conc_mass_comp[a] == 1e-10 * mg / L]; and the member
    [properties_out[t].conc_mass_comp["H2O"] == 1e6 * mg / L].  No emitted
    member mentions the upstream water concentration.  Hence every
    valuation that satisfies the block gives each downstream metal its
    upstream value, each acid the value of [1e-10 mg/L] and water the value
    of [1e6 mg/L], whatever it assigns upstream. *)
Theorem build_downstream_concentrations
  (time : list Time) (cs : list (Component Time)) :
  build sb time = inr cs ->
  forall t, In t time ->
    (forall i,
        In i ["Al"; "Ca"; "Fe"; "Sc"; "Y"; "La"; "Ce"; "Pr"; "Nd"; "Sm";
              "Gd"; "Dy"] ->
        In {| c_name := eq_conc_mass_metals; c_time := t;
              c_species := Some i;
              c_body := {| lhs := EVar (conc_mass_comp properties_out t i);
                           rhs := EVar (conc_mass_comp properties_in t i) |} |}
           (constraints_of cs))
    /\ (forall a,
           In a ["H"; "HSO4"; "SO4"] ->
           In {| c_name := eq_conc_mass_acids; c_time := t;
                 c_species := Some a;
                 c_body := {| lhs := EVar (conc_mass_comp properties_out t a);
                              rhs := EDiv (EMul (ENum 1e-10%float) (EUnit mg))
                                          (EUnit L) |} |}
              (constraints_of cs))
    /\ In {| c_name := eq_conc_mass_water; c_time := t; c_species := None;
             c_body := {| lhs := EVar (conc_mass_comp properties_out t "H2O");
                          rhs := EDiv (EMul (ENum 1e6%float) (EUnit mg))
                                      (EUnit L) |} |}
          (constraints_of cs)
    /\ (forall c t',
           In c (constraints_of cs) ->
           ~ In (conc_mass_comp properties_in t' "H2O") (vars_of_constraint c))
    /\ (forall (R : Type) (num : float -> R) (unit_value : PyUnit -> R)
               (mul div : R -> R -> R) (rho : Var Time -> R),
           satisfies num unit_value mul div rho cs ->
           (forall i,
               In i ["Al"; "Ca"; "Fe"; "Sc"; "Y"; "La"; "Ce"; "Pr"; "Nd";
                     "Sm"; "Gd"; "Dy"] ->
               rho (conc_mass_comp properties_out t i)
               = rho (conc_mass_comp properties_in t i))
           /\ (forall a,
                  In a ["H"; "HSO4"; "SO4"] ->
                  rho (conc_mass_comp properties_out t a)
                  = div (mul (num 1e-10%float) (unit_value mg)) (unit_value L))
           /\ rho (conc_mass_comp properties_out t "H2O")
              = div (mul (num 1e6%float) (unit_value mg)) (unit_value L)).
Proof.
  intros Hb t Ht. apply build_inr in Hb as [-> _].
  unfold satisfies. rewrite constraints_of_built.
  split; [|split; [|split; [|split]]].
  - intros i Hi. exact (metals_member_in time t i Ht Hi).
  - intros a Ha. exact (acids_member_in time t a Ht Ha).
  - exact (water_member_in time t Ht).
  - intros c t' Hc Hv. apply member_cases in Hc as [H|[H|[H|H]]].
    + destruct H as (u & _ & ->). simpl in Hv.
      destruct Hv as [Hv|[Hv|[]]]; discriminate.
    + destruct H as (u & i & _ & Hi & ->). simpl in Hv.
      destruct Hv as [Hv|[Hv|[]]]; [discriminate|].
      injection Hv as _ ->. now apply water_not_metal in Hi.
    + destruct H as (u & _ & ->). simpl in Hv.
      destruct Hv as [Hv|[]]; discriminate.
    + destruct H as (u & i & _ & Hi & ->). simpl in Hv.
      destruct Hv as [Hv|[]]; discriminate.
  - intros R num unit_value mul div rho Hsat.
    rewrite Forall_forall in Hsat.
    split; [|split].
    + intros i Hi. exact (Hsat _ (metals_member_in time t i Ht Hi)).
    + intros a Ha. exact (Hsat _ (acids_member_in time t a Ht Ha)).
    + exact (Hsat _ (water_member_in time t Ht)).
Qed.

(** C6.  With at least one time point, if some species that the rules
    subscript a side with (a metal on either side; water or an acid
    species downstream) is missing from that side's component list, then
    [build] itself raises: a [KeyError] naming a missing expected species
    leaves [build], and no block is handed on to a solve. *)
Theorem build_raises_on_missing_species
  (time : list Time) (s : Side) (i : string) :
  time <> [] ->
  In i (expected_on s) ->
  has sb s i = false ->
  exists k s',
    build sb time = inl (KeyError k)
    /\ In k (expected_on s') /\ has sb s' k = false.
Proof.
  intros Ht Hi Hmiss. destruct (build sb time) as [e|cs] eqn:Hb.
  - apply build_inl in Hb as (k & s' & -> & Hk & Hk').
    exists k, s'. auto.
  - apply build_inr in Hb as [_ [Hnil|Hall]]; [contradiction|].
    rewrite (Hall s i Hi) in Hmiss. discriminate.
Qed.

(** C7.  When [build] returns over a duplicate-free time set, then for
    every time point there is exactly one member whose downstream variable
    is the volumetric flow, and it equates the downstream flow with the
    upstream flow; likewise exactly one member per metal, equating the two
    concentrations.  Every member contains exactly one downstream variable,
    no downstream variable occurs in two members, and the block declares
    no variable of its own. *)
Theorem build_one_equality_per_quantity
  (time : list Time) (cs : list (Component Time)) :
  NoDup time ->
  build sb time = inr cs ->
  (forall t, In t time ->
     (In {| c_name := eq_flow_vol_rule; c_time := t; c_species := None;
            c_body := {| lhs := EVar (flow_vol properties_out t);
                         rhs := EVar (flow_vol properties_in t) |} |}
         (constraints_of cs)
      /\ forall c, In c (constraints_of cs) ->
           downstream_vars c = [flow_vol properties_out t] ->
           c = flow_vol_member t)
     /\ (forall i, In i metals ->
           In {| c_name := eq_conc_mass_metals; c_time := t;
                 c_species := Some i;
                 c_body := {| lhs := EVar (conc_mass_comp properties_out t i);
                              rhs := EVar (conc_mass_comp properties_in t i) |} |}
              (constraints_of cs)
           /\ forall c, In c (constraints_of cs) ->
                downstream_vars c = [conc_mass_comp properties_out t i] ->
                c = metals_member (t, i)))
  /\ (forall c, In c (constraints_of cs) -> exists v, downstream_vars c = [v])
  /\ NoDup (flat_map downstream_vars (constraints_of cs))
  /\ declared_vars cs = []
  /\ length (constraints_of cs) = (17 * length time)%nat.
Proof.
  intros Hnd Hb. apply build_inr in Hb as [-> _].
  rewrite constraints_of_built.
  split; [|split; [|split; [|split]]].
  - intros t Ht. split; [split|].
    + exact (flow_vol_member_in time t Ht).
    + intros c Hc Hv. apply downstream_vars_member in Hc as [H|H].
      * destruct H as (u & _ & -> & Hu). rewrite Hu in Hv.
        now injection Hv as ->.
      * destruct H as (u & i & _ & _ & Hu & _). rewrite Hu in Hv.
        discriminate.
    + intros i Hi. split.
      * exact (metals_member_in time t i Ht Hi).
      * intros c Hc Hv. apply downstream_vars_member in Hc as [H|H].
        -- destruct H as (u & _ & _ & Hu). rewrite Hu in Hv. discriminate.
        -- destruct H as (u & j & _ & _ & Hu & Hj). rewrite Hu in Hv.
           injection Hv as -> ->. now apply Hj.
  - intros c Hc. apply downstream_vars_member in Hc as [H|H].
    + destruct H as (u & _ & _ & Hu). eauto.
    + destruct H as (u & i & _ & _ & Hu & _). eauto.
  - now apply NoDup_downstream.
  - reflexivity.
  - unfold members. rewrite !length_app, !length_map, !length_prod.
    unfold metals, acids. simpl length. lia.
Qed.

End WithBlocks.

(** The theorems at a steady-state flowsheet with one time point. *)
Lemma build_downstream_concentrations_witness :
  build Demo.blocks Demo.time = inr (built Demo.time)
  /\ In (water_member 0%Z) (constraints_of (built Demo.time))
  /\ In (metals_member (0%Z, "Sc")) (constraints_of (built Demo.time))
  /\ In (acids_member (0%Z, "HSO4")) (constraints_of (built Demo.time)).
Proof.
  split; [reflexivity|].
  destruct (build_downstream_concentrations Demo.blocks Demo.time
              (built Demo.time) eq_refl 0%Z (or_introl eq_refl))
    as (Hm & Ha & Hw & _).
  split; [exact Hw|]. split.
  - apply Hm. simpl. auto.
  - apply Ha. simpl. auto.
Defined.

Lemma build_raises_on_missing_species_witness :
  Demo.time <> []
  /\ In "Sc" (expected_on properties_in)
  /\ has Demo.blocks_without_Sc properties_in "Sc" = false
  /\ exists k s',
       build Demo.blocks_without_Sc Demo.time = inl (KeyError k)
       /\ In k (expected_on s')
       /\ has Demo.blocks_without_Sc s' k = false.
Proof.
  assert (H1 : Demo.time <> []) by discriminate.
  assert (H2 : In "Sc" (expected_on properties_in)) by (simpl; auto).
  assert (H3 : has Demo.blocks_without_Sc properties_in "Sc" = false)
    by reflexivity.
  repeat split; trivial.
  exact (build_raises_on_missing_species Demo.blocks_without_Sc Demo.time
           properties_in "Sc" H1 H2 H3).
Defined.

Lemma build_one_equality_per_quantity_witness :
  NoDup Demo.time
  /\ build Demo.blocks Demo.time = inr (built Demo.time)
  /\ length (constraints_of (built Demo.time)) = 17%nat
  /\ NoDup (flat_map downstream_vars (constraints_of (built Demo.time))).
Proof.
  assert (H1 : NoDup Demo.time) by (repeat constructor; simpl; tauto).
  split; [exact H1|]. split; [reflexivity|].
  destruct (build_one_equality_per_quantity Demo.blocks Demo.time
              (built Demo.time) H1 eq_refl) as (_ & _ & Hnd & _ & Hlen).
  split; [exact Hlen | exact Hnd].
Defined.

End BuildFacts.

(* ===================================================================== *)
(** * Properties of the translator's [initialize_build] *)
(* ===================================================================== *)

Lemma app_nil_suffix {A : Type} (l b : list A) : l = l ++ b -> b = [].
Proof.
  intros H. rewrite <- (app_nil_r l) in H at 1.
  apply app_inv_head in H. now symmetry.
Qed.

Module InitializeFacts.

Import Translator.

(** Unfold one run of [initialize_build] into the case tree of its
    collaborators' answers. *)
Ltac run_cases :=
  unfold initialize_build, bind, lift_exc, call, query, log_info, raise, ret;
  cbn [model events];
  repeat match goal with
    | |- context [match ?x with _ => _ end] =>
        lazymatch x with
        | context [match _ with _ => _ end] => fail
        | _ => destruct x eqn:?; cbn [model events fst snd]
        end
    end.

(** Read the events of a run off [events w' = events w ++ evs]. *)
Ltac read_events H :=
  cbn [events] in H; rewrite <- ?app_assoc in H;
  first [apply app_inv_head in H | apply app_nil_suffix in H];
  cbn [app] in H; subst.

Section WithEnv.

Context {Model Flags Results Solver StateArgs OutLvl OptArg SolverArg : Type}.
Variable E : Env Model Flags Results Solver StateArgs OutLvl OptArg SolverArg.
Variables state_args_in state_args_out : option StateArgs.
Variable outlvl : OutLvl.
Variable solver : option SolverArg.
Variable optarg : option OptArg.

Local Notation "'run'" :=
  (initialize_build E state_args_in state_args_out outlvl solver optarg).
Local Notation "'initialized'" :=
  (initialized_from E state_args_in state_args_out outlvl solver optarg).

Lemma run_dof_nonzero w opt fl m1 m2 :
  initialized w opt fl m1 m2 ->
  degrees_of_freedom E m2 <> 0 ->
  run w =
  (inl (Exception_ (dof_message E (degrees_of_freedom E m2))),
   {| model := m2;
      events := events w ++ [EvInitialize properties_in true;
                             EvInitialize properties_out false] |}).
Proof.
  intros (Hs & Hi & Ho) Hd.
  unfold initialize_build, bind, lift_exc, call, query, log_info, raise, ret.
  rewrite Hs, Hi. cbn [model events]. rewrite Ho. cbn [model events].
  destruct (Z.eqb_spec (degrees_of_freedom E m2) 0) as [H0|_];
    [contradiction|].
  cbn [negb]. now rewrite <- app_assoc.
Qed.

Lemma run_dof_zero w opt fl m1 m2 res m3 m4 :
  initialized w opt fl m1 m2 ->
  degrees_of_freedom E m2 = 0 ->
  opt_solve E opt m2 = (inr res, m3) ->
  properties_in_release_state E fl outlvl m3 = (inr tt, m4) ->
  run w =
  ((if check_optimal_termination E res then inr tt
    else inl (InitializationError (failed_message E))),
   {| model := m4;
      events := events w ++
        [EvInitialize properties_in true;
         EvInitialize properties_out false;
         EvSolve;
         EvReleaseState fl;
         EvLogInfo ("Initialization Complete: " ++ condition E res)%string] |}).
Proof.
  intros (Hs & Hi & Ho) Hd Hsolve Hrel.
  unfold initialize_build, bind, lift_exc, call, query, log_info, raise, ret.
  rewrite Hs, Hi. cbn [model events]. rewrite Ho. cbn [model events].
  rewrite Hd. cbn [Z.eqb negb model events]. rewrite Hsolve. cbn [model events].
  rewrite Hrel. cbn [model events]. rewrite <- !app_assoc. cbn [app].
  destruct (check_optimal_termination E res); reflexivity.
Qed.

(** The solve is reached only past the degree-of-freedom test. *)
Lemma solve_only_at_zero w r w' evs :
  run w = (r, w') ->
  events w' = events w ++ evs ->
  In EvSolve evs ->
  exists opt fl m1 m2,
    initialized w opt fl m1 m2 /\ degrees_of_freedom E m2 = 0.
Proof.
  intros Hrun Hev Hin. revert Hrun. unfold initialized_from.
  run_cases; intros [= <- <-]; read_events Hev; simpl in Hin;
    try (exfalso; intuition discriminate).
  all: repeat match goal with u : unit |- _ => destruct u end.
  all: match goal with
       | H : negb (_ =? 0) = false |- _ =>
           apply negb_false_iff, Z.eqb_eq in H
       end.
  all: eauto 10.
Qed.

(** A normal return implies an optimal solve. *)
Lemma returns_only_if_optimal w w' :
  run w = (inr tt, w') ->
  exists opt fl m1 m2 res m3,
    initialized w opt fl m1 m2
    /\ degrees_of_freedom E m2 = 0
    /\ opt_solve E opt m2 = (inr res, m3)
    /\ check_optimal_termination E res = true.
Proof.
  unfold initialized_from.
  run_cases; intros [= <-].
  all: repeat match goal with u : unit |- _ => destruct u end.
  all: repeat match goal with
       | H : negb (_ =? 0) = false |- _ =>
           apply negb_false_iff, Z.eqb_eq in H
       | H : negb _ = false |- _ => apply negb_false_iff in H
       end.
  all: eauto 15.
Qed.

(** Once the solve has returned, [release_state] is called. *)
Lemma release_after_solve w opt fl m1 m2 res m3 :
  initialized w opt fl m1 m2 ->
  degrees_of_freedom E m2 = 0 ->
  opt_solve E opt m2 = (inr res, m3) ->
  exists r w' tl,
    run w = (r, w')
    /\ events w' = events w ++
         EvInitialize properties_in true :: EvInitialize properties_out false
         :: EvSolve :: EvReleaseState fl :: tl.
Proof.
  intros (Hs & Hi & Ho) Hd Hsolve.
  unfold initialize_build, bind, lift_exc, call, query, log_info, raise, ret.
  rewrite Hs, Hi. cbn [model events]. rewrite Ho. cbn [model events].
  rewrite Hd. cbn [Z.eqb negb model events]. rewrite Hsolve.
  cbn [model events].
  destruct (properties_in_release_state E fl outlvl m3) as [[e|u] m4].
  - eexists _, _, []. split; [reflexivity|].
    cbn [events]. now rewrite <- !app_assoc.
  - cbn [model events].
    destruct (check_optimal_termination E res); cbn [negb];
      (eexists _, _, [_]; split; [reflexivity|]);
      cbn [events]; now rewrite <- !app_assoc.
Qed.

(** C2.  Once both state blocks are initialized: if the degree-of-freedom
    count of the block is not zero, [initialize_build] raises an exception
    whose message is the block's name, followed by " degrees of freedom were
    not 0 at the beginning of initialization. DoF = ", followed by the
    count; nothing was called after the two initializations.  And in any
    run in which the solve is called at all, both state blocks had been
    initialized and the count at that point was zero. *)
Theorem dof_check_before_solve :
  (forall w opt fl m1 m2,
      initialized w opt fl m1 m2 ->
      degrees_of_freedom E m2 <> 0 ->
      run w =
      (inl (Exception_
              (name E
               ++ " degrees of freedom were not 0 at the beginning of initialization. DoF = "
               ++ str_int (degrees_of_freedom E m2))%string),
       {| model := m2;
          events := events w ++ [EvInitialize properties_in true;
                                 EvInitialize properties_out false] |}))
  /\ (forall w r w' evs,
         run w = (r, w') ->
         events w' = events w ++ evs ->
         In EvSolve evs ->
         exists opt fl m1 m2,
           initialized w opt fl m1 m2 /\ degrees_of_freedom E m2 = 0).
Proof.
  split.
  - intros w opt fl m1 m2 Hinit Hd.
    exact (run_dof_nonzero w opt fl m1 m2 Hinit Hd).
  - exact solve_only_at_zero.
Qed.

(** C3.  If the local solve returns a result that
    [check_optimal_termination] rejects, [initialize_build] does not return
    normally; when [release_state] returns, the exception that leaves is
    [InitializationError] with the block's name followed by " failed to
    initialize successfully. Please check the output logs for more
    information.".  Conversely every normal return of [initialize_build]
    comes after a solve whose result was optimal. *)
Theorem nonoptimal_solve_raises :
  (forall w opt fl m1 m2 res m3,
      initialized w opt fl m1 m2 ->
      degrees_of_freedom E m2 = 0 ->
      opt_solve E opt m2 = (inr res, m3) ->
      check_optimal_termination E res = false ->
      fst (run w) <> inr tt
      /\ forall m4,
           properties_in_release_state E fl outlvl m3 = (inr tt, m4) ->
           run w =
           (inl (InitializationError
                   (name E
                    ++ " failed to initialize successfully. Please check the output logs for more information.")%string),
            {| model := m4;
               events := events w ++
                 [EvInitialize properties_in true;
                  EvInitialize properties_out false;
                  EvSolve;
                  EvReleaseState fl;
                  EvLogInfo ("Initialization Complete: "
                             ++ condition E res)%string] |}))
  /\ (forall w w',
         run w = (inr tt, w') ->
         exists opt fl m1 m2 res m3,
           initialized w opt fl m1 m2
           /\ degrees_of_freedom E m2 = 0
           /\ opt_solve E opt m2 = (inr res, m3)
           /\ check_optimal_termination E res = true).
Proof.
  split; [|exact returns_only_if_optimal].
  intros w opt fl m1 m2 res m3 Hinit Hd Hsolve Hbad. split.
  - destruct (run w) as [r w'] eqn:Hrun. cbn [fst]. intros ->.
    apply returns_only_if_optimal in Hrun
      as (opt' & fl' & m1' & m2' & res' & m3' & Hinit' & _ & Hsolve' & Hgood).
    destruct Hinit as (Hs & Hi & Ho), Hinit' as (Hs' & Hi' & Ho').
    rewrite Hs in Hs'. injection Hs' as <-.
    rewrite Hi in Hi'. injection Hi' as <- <-.
    rewrite Ho in Ho'. injection Ho' as <-.
    rewrite Hsolve in Hsolve'. injection Hsolve' as <- <-.
    rewrite Hbad in Hgood. discriminate.
  - intros m4 Hrel.
    rewrite (run_dof_zero w opt fl m1 m2 res m3 m4 Hinit Hd Hsolve Hrel).
    rewrite Hbad. reflexivity.
Qed.

(** When the solve call itself raises, its exception leaves and nothing
    more is called. *)
Lemma run_solve_raises w opt fl m1 m2 e m3 :
  initialized w opt fl m1 m2 ->
  degrees_of_freedom E m2 = 0 ->
  opt_solve E opt m2 = (inl e, m3) ->
  run w =
  (inl e,
   {| model := m3;
      events := events w ++ [EvInitialize properties_in true;
                             EvInitialize properties_out false;
                             EvSolve] |}).
Proof.
  intros (Hs & Hi & Ho) Hd Hsolve.
  unfold initialize_build, bind, lift_exc, call, query, log_info, raise, ret.
  rewrite Hs, Hi. cbn [model events]. rewrite Ho. cbn [model events].
  rewrite Hd. cbn [Z.eqb negb model events]. rewrite Hsolve.
  now rewrite <- !app_assoc.
Qed.

(** C9 (as the code has it).  Once both state blocks are initialized (the
    inlet with [hold_state=True]), [release_state] is among the calls of
    the run exactly when the degree-of-freedom count is zero and the solve
    call returns a result.  If the count is not zero, the exception leaves
    with no [release_state] call made, the model being as the two
    initializations left it.  If the count is zero and the solve returns a
    non-optimal result, [release_state] is called with the flags and
    "Initialization Complete: ..." is logged, in this order, before
    [InitializationError] leaves.  If the count is zero and the solve call
    itself raises, its exception leaves and [release_state] is not
    called. *)
Theorem release_iff_dof_zero_and_solve_returns w opt fl m1 m2 :
  initialized w opt fl m1 m2 ->
  (degrees_of_freedom E m2 <> 0 ->
   run w =
   (inl (Exception_ (dof_message E (degrees_of_freedom E m2))),
    {| model := m2;
       events := events w ++ [EvInitialize properties_in true;
                              EvInitialize properties_out false] |}))
  /\ (degrees_of_freedom E m2 = 0 ->
      forall res m3 m4,
        opt_solve E opt m2 = (inr res, m3) ->
        properties_in_release_state E fl outlvl m3 = (inr tt, m4) ->
        check_optimal_termination E res = false ->
        run w =
        (inl (InitializationError (failed_message E)),
         {| model := m4;
            events := events w ++
              [EvInitialize properties_in true;
               EvInitialize properties_out false;
               EvSolve;
               EvReleaseState fl;
               EvLogInfo ("Initialization Complete: "
                          ++ condition E res)%string] |}))
  /\ (degrees_of_freedom E m2 = 0 ->
      forall e m3,
        opt_solve E opt m2 = (inl e, m3) ->
        run w =
        (inl e,
         {| model := m3;
            events := events w ++
              [EvInitialize properties_in true;
               EvInitialize properties_out false;
               EvSolve] |}))
  /\ (forall r w' evs,
         run w = (r, w') ->
         events w' = events w ++ evs ->
         (existsb is_release evs = true <->
          degrees_of_freedom E m2 = 0
          /\ exists res m3, opt_solve E opt m2 = (inr res, m3))).
Proof.
  intros Hinit. split; [|split; [|split]].
  - intros Hd. exact (run_dof_nonzero w opt fl m1 m2 Hinit Hd).
  - intros Hd res m3 m4 Hsolve Hrel Hbad.
    rewrite (run_dof_zero w opt fl m1 m2 res m3 m4 Hinit Hd Hsolve Hrel).
    rewrite Hbad. reflexivity.
  - intros Hd e m3 Hsolve.
    exact (run_solve_raises w opt fl m1 m2 e m3 Hinit Hd Hsolve).
  - intros r w' evs Hrun Hev.
    destruct (Z.eq_dec (degrees_of_freedom E m2) 0) as [Hd|Hd].
    + destruct (opt_solve E opt m2) as [[e|res] m3] eqn:Hsolve.
      * rewrite (run_solve_raises w opt fl m1 m2 e m3 Hinit Hd Hsolve)
          in Hrun.
        injection Hrun as <- <-. cbn [events] in Hev.
        apply app_inv_head in Hev. subst evs.
        split; [discriminate|]. intros [_ (res & m3' & [=])].
      * destruct (release_after_solve w opt fl m1 m2 res m3 Hinit Hd Hsolve)
          as (r' & w'' & tl & Hrun' & Hev').
        rewrite Hrun in Hrun'. injection Hrun' as <- <-.
        rewrite Hev in Hev'. apply app_inv_head in Hev'. subst evs.
        split; [intros _; split; [exact Hd|eauto] | intros _; reflexivity].
    + rewrite (run_dof_nonzero w opt fl m1 m2 Hinit Hd) in Hrun.
      injection Hrun as <- <-. cbn [events] in Hev.
      apply app_inv_head in Hev. subst evs.
      split; [discriminate | intros [H0 _]; contradiction].
Qed.

End WithEnv.

(** The theorems on a translator whose model has three free variables,
    and on one whose solve ends infeasible. *)
Lemma dof_check_before_solve_witness :
  initialize_build (Demo.translator_env true) None None tt None None
    (Demo.world 3)
  = (inl (Exception_
            "fs.translator degrees of freedom were not 0 at the beginning of initialization. DoF = 3"),
     {| model := {| Demo.dof := 3; Demo.inlet_fixed := true |};
        events := [EvInitialize properties_in true;
                   EvInitialize properties_out false] |}).
Proof.
  refine (proj1 (dof_check_before_solve (Demo.translator_env true)
                   None None tt None None)
            (Demo.world 3) tt tt _ _ (conj eq_refl (conj eq_refl eq_refl)) _).
  discriminate.
Defined.

Lemma nonoptimal_solve_raises_witness :
  initialize_build (Demo.translator_env false) None None tt None None
    (Demo.world 0)
  = (inl (InitializationError
            "fs.translator failed to initialize successfully. Please check the output logs for more information."),
     {| model := {| Demo.dof := 0; Demo.inlet_fixed := false |};
        events := [EvInitialize properties_in true;
                   EvInitialize properties_out false;
                   EvSolve;
                   EvReleaseState tt;
                   EvLogInfo "Initialization Complete: infeasible"] |}).
Proof.
  refine (proj2 (proj1 (nonoptimal_solve_raises (Demo.translator_env false)
                          None None tt None None)
                   (Demo.world 0) tt tt _ _ false _
                   (conj eq_refl (conj eq_refl eq_refl))
                   eq_refl eq_refl eq_refl) _ eq_refl).
Defined.

Lemma release_iff_dof_zero_and_solve_returns_witness :
  (existsb is_release
     (events (snd (initialize_build (Demo.translator_env false)
                     None None tt None None (Demo.world 0)))) = true
   <-> 0 = 0 /\ exists res m3,
                  opt_solve (Demo.translator_env false) tt
                    {| Demo.dof := 0; Demo.inlet_fixed := true |}
                  = (inr res, m3))
  /\ (existsb is_release
        (events (snd (initialize_build (FailingDemo.translator_env 3)
                        None None tt None None (Demo.world 0)))) = true
      <-> 0 = 0 /\ exists res m3,
                     opt_solve (FailingDemo.translator_env 3) tt
                       {| Demo.dof := 0; Demo.inlet_fixed := true |}
                     = (inr res, m3)).
Proof.
  split.
  - exact (proj2 (proj2 (proj2 (release_iff_dof_zero_and_solve_returns
                                  (Demo.translator_env false)
                                  None None tt None None
                                  (Demo.world 0) tt tt _ _
                                  (conj eq_refl (conj eq_refl eq_refl)))))
             _ _ _ eq_refl eq_refl).
  - exact (proj2 (proj2 (proj2 (release_iff_dof_zero_and_solve_returns
                                  (FailingDemo.translator_env 3)
                                  None None tt None None
                                  (Demo.world 0) tt tt _ _
                                  (conj eq_refl (conj eq_refl eq_refl)))))
             _ _ _ eq_refl eq_refl).
Defined.

(** C9 as stated fails: the degree-of-freedom count is zero, so the check
    passes, but the solve call raises; the exception leaves
    [initialize_build] and [release_state] is not among the calls, the
    inlet state being still held. *)
Lemma release_skipped_when_solve_raises :
  degrees_of_freedom (FailingDemo.translator_env 3)
    {| Demo.dof := 0; Demo.inlet_fixed := true |} = 0
  /\ initialize_build (FailingDemo.translator_env 3) None None tt None None
       (Demo.world 0)
     = (inl (ExternalError "solve"),
        {| model := {| Demo.dof := 0; Demo.inlet_fixed := true |};
           events := [EvInitialize properties_in true;
                      EvInitialize properties_out false;
                      EvSolve] |})
  /\ existsb is_release
       (events (snd (initialize_build (FailingDemo.translator_env 3)
                       None None tt None None (Demo.world 0)))) = false.
Proof. repeat split; reflexivity. Qed.

End InitializeFacts.

(* ===================================================================== *)
(** * Properties of [main] of solve_diafiltration.py *)
(* ===================================================================== *)

Module MainFacts.

Import SolveDiafiltration.

(** Unfold one run of [main] into the case tree of its collaborators'
    answers; every leaf has a concrete list of calls. *)
Ltac main_unfold :=
  unfold outcome, calls_of, main, bind, lift_exc, call, raise, ret,
    list_getitem;
  cbn [tl nth_error fst snd app].

Ltac main_cases :=
  main_unfold;
  repeat match goal with
    | |- context [match ?x with _ => _ end] =>
        lazymatch x with
        | context [match _ with _ => _ end] => fail
        | _ => destruct x eqn:?; cbn [tl nth_error fst snd app]
        end
    end.

Section WithEnv.

Context {DF Model Solver Results : Type}.
Variable E : Env DF Model Solver Results.

(** The literals of [main], evaluated. *)
Lemma diafiltration_args_value (ns nt : Z) :
  diafiltration_args ns nt true =
  {| NS := ns;
     NT := nt;
     solutes := ["Li"; "Co"];
     flux := PyFloat 0.1;
     sieving_coefficient := [("Li", PyFloat 1.3); ("Co", PyFloat 0.5)];
     feed := [("solvent", PyInt 100); ("Li", PyFloat 170); ("Co", PyInt 1700)];
     diafiltrate := [("solvent", PyInt 30); ("Li", PyFloat 3); ("Co", PyFloat 6)];
     precipitate := true;
     precipitate_yield :=
       [("permeate", [("Li", PyFloat 0.81); ("Co", PyFloat 0.01)]);
        ("retentate", [("Li", PyFloat 0.20); ("Co", PyFloat 0.89)])] |}.
Proof. reflexivity. Qed.

(** Read as Python numbers, the computed entries equal the integers:
    [1.7 * 100 == 170], [17 * 100 == 1700], [0.1 * 30 == 3],
    [0.2 * 30 == 6]. *)
Lemma main_literals_equal_integers :
  option_map (fun v => py_eqb v (PyInt 170)) (dict_get main_feed "Li")
  = Some true
  /\ option_map (fun v => py_eqb v (PyInt 1700)) (dict_get main_feed "Co")
     = Some true
  /\ option_map (fun v => py_eqb v (PyInt 3)) (dict_get main_diaf "Li")
     = Some true
  /\ option_map (fun v => py_eqb v (PyInt 6)) (dict_get main_diaf "Co")
     = Some true.
Proof. repeat split; reflexivity. Qed.

(** With the three positional arguments readable, the first call is the
    construction of the model. *)
Lemma main_constructs (prog mix s t : string) (rest : list string) (ns nt : Z) :
  int_ E s = inr ns ->
  int_ E t = inr nt ->
  exists evs,
    calls_of E (prog :: mix :: s :: t :: rest)
    = EvDiafiltrationModel (diafiltration_args ns nt true) :: evs.
Proof.
  intros Hs Ht. main_unfold. rewrite Hs, Ht. cbn [fst snd app].
  main_cases; eexists; reflexivity.
Qed.

(** The run up to the first [V.fix]. *)
Lemma main_until_unfix (prog mix s t : string) (rest : list string)
  (ns nt : Z) (df : DF) (m0 m1 m2 : Model) :
  int_ E s = inr ns ->
  int_ E t = inr nt ->
  DiafiltrationModel E (diafiltration_args ns nt true) = inr df ->
  build_flowsheet E df mix = inr m0 ->
  initialize E df m0 mix true = inr m1 ->
  unfix_dof E df m1 mix true = inr m2 ->
  exists evs,
    calls_of E (prog :: mix :: s :: t :: rest)
    = [EvDiafiltrationModel (diafiltration_args ns nt true);
       EvBuildFlowsheet mix;
       EvInitialize m0 mix true;
       EvUnfixDof m1 mix true;
       EvFixV m2 "retentate" (PyInt 500)] ++ evs
    /\ forall m3,
         precipitator_V_fix E "retentate" (PyInt 500) m2 = inr m3 ->
         exists evs', evs = EvFixV m3 "permeate" (PyInt 500) :: evs'.
Proof.
  intros Hs Ht Hdf Hb Hi Hu. main_unfold.
  rewrite Hs, Ht. cbn [fst snd app]. rewrite Hdf. cbn [fst snd app].
  rewrite Hb. cbn [fst snd app]. rewrite Hi. cbn [fst snd app].
  rewrite Hu. cbn [fst snd app].
  main_cases; eexists; (split; [reflexivity|]);
    intros ? [=]; subst; eexists; reflexivity.
Qed.

(** Tactics for the leaves: a membership in a concrete list of calls. *)
Ltac in_calls H :=
  cbn [In] in H;
  repeat (destruct H as [H|H]; [try discriminate H|]); try contradiction H.

(** Whatever the arguments, the model is only ever constructed with
    [precipitate=True] and the yields of the source. *)
Lemma constructed_with_precipitate (argv : list string) (a : DiafiltrationArgs) :
  In (EvDiafiltrationModel a) (calls_of E argv) ->
  precipitate a = true
  /\ precipitate_yield a =
     [("permeate", [("Li", PyFloat 0.81); ("Co", PyFloat 0.01)]);
      ("retentate", [("Li", PyFloat 0.20); ("Co", PyFloat 0.89)])].
Proof.
  main_cases; intros H; in_calls H; injection H as <-; split; reflexivity.
Qed.

Lemma precipitate_passed_on (argv : list string) (m : Model) (mix : string)
  (p : bool) :
  In (EvInitialize m mix p) (calls_of E argv)
  \/ In (EvUnfixDof m mix p) (calls_of E argv) ->
  p = true.
Proof.
  main_cases; intros [H|H]; in_calls H; now injection H.
Qed.

Lemma R_only_set_to_constant (argv : list string) (m : Model) (v : PyNum) :
  In (EvSetR m v) (calls_of E argv) -> v = PyFloat 0.8.
Proof.
  main_cases; intros H; in_calls H; now injection H.
Qed.

(** The solver runs on the model as the assignment of [m.R] left it. *)
Lemma R_set_before_solve (argv : list string) (m : Model) (tee : bool) :
  In (EvSolve m tee) (calls_of E argv) ->
  exists pre post m',
    calls_of E argv = pre ++ EvSolve m tee :: post
    /\ set_R E (PyFloat 0.8) m' = inr m
    /\ In (EvSetR m' (PyFloat 0.8)) pre
    /\ forall e, In e pre -> is_solve e = false.
Proof.
  main_cases; intros H; in_calls H; injection H as <- <-;
    (eexists [_; _; _; _; _; _; _; _; _], _, _;
     split; [reflexivity|split; [eassumption|split; [cbn [In]; auto 12|]]]);
    intros ev Hev; in_calls Hev; subst ev; reflexivity.
Qed.



End WithEnv.




(** C5 (as the code has it).  Between [unfix_dof] and the solve, [main]
    fixes the two precipitator volumes, calls [report_statistics], assigns
    [m.R] and obtains the solver.  None of this tests the degree-of-freedom
    count: whenever these calls return, the solver is invoked on the model,
    whatever its count [n] is. *)
Theorem solve_follows_unfix_without_dof_check
  {DF Model Solver Results : Type} (E : Env DF Model Solver Results)
  (degrees_of_freedom : Model -> Z) (n : Z)
  (prog mix s t : string) (rest : list string) (ns nt : Z) (df : DF)
  (m0 m1 m2 m3 m4 m5 : Model) (sv : Solver) :
  int_ E s = inr ns ->
  int_ E t = inr nt ->
  DiafiltrationModel E (diafiltration_args ns nt true) = inr df ->
  build_flowsheet E df mix = inr m0 ->
  initialize E df m0 mix true = inr m1 ->
  unfix_dof E df m1 mix true = inr m2 ->
  precipitator_V_fix E "retentate" (PyInt 500) m2 = inr m3 ->
  precipitator_V_fix E "permeate" (PyInt 500) m3 = inr m4 ->
  report_statistics E m4 = inr tt ->
  set_R E (PyFloat 0.8) m4 = inr m5 ->
  SolverFactory E "ipopt" = inr sv ->
  degrees_of_freedom m5 = n ->
  exists evs,
    calls_of E (prog :: mix :: s :: t :: rest) =
    [EvDiafiltrationModel (diafiltration_args ns nt true);
     EvBuildFlowsheet mix;
     EvInitialize m0 mix true;
     EvUnfixDof m1 mix true;
     EvFixV m2 "retentate" (PyInt 500);
     EvFixV m3 "permeate" (PyInt 500);
     EvReportStatistics m4;
     EvSetR m4 (PyFloat 0.8);
     EvSolverFactory "ipopt";
     EvSolve m5 true] ++ evs.
Proof.
  intros Hs Ht Hdf Hb Hi Hu Hf1 Hf2 Hrep HR Hsv _. main_unfold.
  rewrite Hs, Ht. cbn [fst snd app]. rewrite Hdf. cbn [fst snd app].
  rewrite Hb. cbn [fst snd app]. rewrite Hi. cbn [fst snd app].
  rewrite Hu. cbn [fst snd app]. rewrite Hf1. cbn [fst snd app].
  rewrite Hf2. cbn [fst snd app]. rewrite Hrep. cbn [fst snd app].
  rewrite HR. cbn [fst snd app]. rewrite Hsv. cbn [fst snd app].
  main_cases; eexists; reflexivity.
Qed.

(** C5 as stated fails: the model handed to the solver has one degree of
    freedom left, and [main] solves, reports and returns all the same. *)
Lemma solve_invoked_with_nonzero_dof :
  calls_of (Demo.main_env true) Demo.argv =
  [EvDiafiltrationModel (diafiltration_args 2 10 true);
   EvBuildFlowsheet "mix";
   EvInitialize 0 "mix" true;
   EvUnfixDof 0 "mix" true;
   EvFixV 3 "retentate" (PyInt 500);
   EvFixV 2 "permeate" (PyInt 500);
   EvReportStatistics 1;
   EvSetR 1 (PyFloat 0.8);
   EvSolverFactory "ipopt";
   EvSolve 1 true;
   EvDisplay 1 "prec_perc_co";
   EvDisplay 1 "prec_perc_li";
   EvReportValues 1]
  /\ Demo.degrees_of_freedom 1 = 1
  /\ outcome (Demo.main_env true) Demo.argv = inr tt.
Proof. repeat split; reflexivity. Qed.

Lemma solve_follows_unfix_without_dof_check_witness :
  exists evs,
    calls_of (Demo.main_env true) Demo.argv =
    [EvDiafiltrationModel (diafiltration_args 2 10 true);
     EvBuildFlowsheet "mix";
     EvInitialize 0 "mix" true;
     EvUnfixDof 0 "mix" true;
     EvFixV 3 "retentate" (PyInt 500);
     EvFixV 2 "permeate" (PyInt 500);
     EvReportStatistics 1;
     EvSetR 1 (PyFloat 0.8);
     EvSolverFactory "ipopt";
     EvSolve 1 true] ++ evs.
Proof.
  exact (solve_follows_unfix_without_dof_check (Demo.main_env true)
           Demo.degrees_of_freedom 1
           "solve_diafiltration.py" "mix" "2" "10" [] 2 10
           (diafiltration_args 2 10 true) 0 0 3 2 1 1 tt
           eq_refl eq_refl eq_refl eq_refl eq_refl eq_refl eq_refl eq_refl
           eq_refl eq_refl eq_refl eq_refl).
Defined.

(** C8.  [main] takes the mixing strategy, the stage count and the tube
    count from [argv[1]], [argv[2]], [argv[3]].  Its first call constructs
    the model with [NS], [NT] the two counts, solutes [["Li", "Co"]], flux
    0.1, sieving coefficients Li 1.3 and Co 0.5, feed solvent 100, Li 170,
    Co 1700, diafiltrate solvent 30, Li 3, Co 6.  When construction,
    [build_flowsheet], [initialize] and [unfix_dof] return, the next two
    calls fix [precipitator["retentate"].V] and then
    [precipitator["permeate"].V] to 500. *)
Theorem main_arguments_and_fixed_volumes
  {DF Model Solver Results : Type} (E : Env DF Model Solver Results)
  (prog mix s t : string) (rest : list string) (ns nt : Z) :
  int_ E s = inr ns ->
  int_ E t = inr nt ->
  let argv := prog :: mix :: s :: t :: rest in
  let args :=
    {| NS := ns;
       NT := nt;
       solutes := ["Li"; "Co"];
       flux := PyFloat 0.1;
       sieving_coefficient := [("Li", PyFloat 1.3); ("Co", PyFloat 0.5)];
       feed := [("solvent", PyInt 100); ("Li", PyFloat 170);
                ("Co", PyInt 1700)];
       diafiltrate := [("solvent", PyInt 30); ("Li", PyFloat 3);
                       ("Co", PyFloat 6)];
       precipitate := true;
       precipitate_yield :=
         [("permeate", [("Li", PyFloat 0.81); ("Co", PyFloat 0.01)]);
          ("retentate", [("Li", PyFloat 0.20); ("Co", PyFloat 0.89)])] |} in
  (exists evs, calls_of E argv = EvDiafiltrationModel args :: evs)
  /\ (forall df m0 m1 m2,
         DiafiltrationModel E args = inr df ->
         build_flowsheet E df mix = inr m0 ->
         initialize E df m0 mix true = inr m1 ->
         unfix_dof E df m1 mix true = inr m2 ->
         exists evs,
           calls_of E argv =
           [EvDiafiltrationModel args;
            EvBuildFlowsheet mix;
            EvInitialize m0 mix true;
            EvUnfixDof m1 mix true;
            EvFixV m2 "retentate" (PyInt 500)] ++ evs
           /\ forall m3,
                precipitator_V_fix E "retentate" (PyInt 500) m2 = inr m3 ->
                exists evs', evs = EvFixV m3 "permeate" (PyInt 500) :: evs').
Proof.
  intros Hs Ht argv args. subst argv args.
  rewrite <- (diafiltration_args_value ns nt). split.
  - exact (main_constructs E prog mix s t rest ns nt Hs Ht).
  - intros df m0 m1 m2. exact (main_until_unfix E prog mix s t rest ns nt
                                 df m0 m1 m2 Hs Ht).
Qed.

Lemma main_arguments_and_fixed_volumes_witness :
  exists evs,
    calls_of (Demo.main_env true) Demo.argv =
    [EvDiafiltrationModel (diafiltration_args 2 10 true);
     EvBuildFlowsheet "mix";
     EvInitialize 0 "mix" true;
     EvUnfixDof 0 "mix" true;
     EvFixV 3 "retentate" (PyInt 500)] ++ evs
    /\ forall m3,
         precipitator_V_fix (Demo.main_env true) "retentate" (PyInt 500) 3
         = inr m3 ->
         exists evs', evs = EvFixV m3 "permeate" (PyInt 500) :: evs'.
Proof.
  exact (proj2 (main_arguments_and_fixed_volumes (Demo.main_env true)
                  "solve_diafiltration.py" "mix" "2" "10" [] 2 10
                  eq_refl eq_refl)
           (diafiltration_args 2 10 true) 0 0 3
           eq_refl eq_refl eq_refl eq_refl).
Defined.

(** The run up to the assignment of [m.R] and on to the solve. *)
Lemma main_until_solve
  {DF Model Solver Results : Type} (E : Env DF Model Solver Results)
  (prog mix s t : string) (rest : list string) (ns nt : Z) (df : DF)
  (m0 m1 m2 m3 m4 : Model) :
  int_ E s = inr ns ->
  int_ E t = inr nt ->
  DiafiltrationModel E (diafiltration_args ns nt true) = inr df ->
  build_flowsheet E df mix = inr m0 ->
  initialize E df m0 mix true = inr m1 ->
  unfix_dof E df m1 mix true = inr m2 ->
  precipitator_V_fix E "retentate" (PyInt 500) m2 = inr m3 ->
  precipitator_V_fix E "permeate" (PyInt 500) m3 = inr m4 ->
  report_statistics E m4 = inr tt ->
  exists evs,
    calls_of E (prog :: mix :: s :: t :: rest) =
    [EvDiafiltrationModel (diafiltration_args ns nt true);
     EvBuildFlowsheet mix;
     EvInitialize m0 mix true;
     EvUnfixDof m1 mix true;
     EvFixV m2 "retentate" (PyInt 500);
     EvFixV m3 "permeate" (PyInt 500);
     EvReportStatistics m4;
     EvSetR m4 (PyFloat 0.8)] ++ evs
    /\ forall m5 sv,
         set_R E (PyFloat 0.8) m4 = inr m5 ->
         SolverFactory E "ipopt" = inr sv ->
         exists evs', evs = EvSolverFactory "ipopt" :: EvSolve m5 true :: evs'.
Proof.
  intros Hs Ht Hdf Hb Hi Hu Hf1 Hf2 Hrep. main_unfold.
  rewrite Hs, Ht. cbn [fst snd app]. rewrite Hdf. cbn [fst snd app].
  rewrite Hb. cbn [fst snd app]. rewrite Hi. cbn [fst snd app].
  rewrite Hu. cbn [fst snd app]. rewrite Hf1. cbn [fst snd app].
  rewrite Hf2. cbn [fst snd app]. rewrite Hrep. cbn [fst snd app].
  main_cases; eexists; (split; [reflexivity|]);
    intros ? ? [=] [=]; subst; eexists; reflexivity.
Qed.

(** A run that returns has constructed the model, assigned [m.R] and then
    solved. *)
Lemma returning_run_sets_R
  {DF Model Solver Results : Type} (E : Env DF Model Solver Results)
  (argv : list string) :
  outcome E argv = inr tt ->
  exists ns nt pre m m' post,
    calls_of E argv =
    EvDiafiltrationModel (diafiltration_args ns nt true)
    :: pre ++ EvSetR m (PyFloat 0.8) :: EvSolverFactory "ipopt"
              :: EvSolve m' true :: post
    /\ set_R E (PyFloat 0.8) m = inr m'.
Proof.
  main_cases; try discriminate; intros _;
    (eexists _, _, [_; _; _; _; _; _], _, _, _;
     split; [reflexivity|eassumption]).
Qed.

(** C10.  In every run of [main], whatever [argv] is: every construction
    of the model has [precipitate=True] and the yields permeate Li 0.81,
    Co 0.01, retentate Li 0.20, Co 0.89; [initialize] and [unfix_dof] are
    only called with [precipitate=True]; [m.R] is only ever assigned 0.8;
    and every solve is preceded by that assignment, the solver running on
    the model as the assignment left it.  These calls are really made:
    with three readable positional arguments the model is constructed (with
    these settings, the arguments supplying only the mixing strategy and the
    two counts); when the calls up to [report_statistics] return, [m.R] is
    assigned 0.8 next, and when that assignment and [SolverFactory] return,
    the solve follows on the model as the assignment left it; every run
    that returns has constructed the model this way, assigned 0.8 to [m.R]
    and solved afterwards. *)
Theorem main_constant_settings
  {DF Model Solver Results : Type} (E : Env DF Model Solver Results)
  (argv : list string) :
  (forall a,
      In (EvDiafiltrationModel a) (calls_of E argv) ->
      precipitate a = true
      /\ precipitate_yield a =
         [("permeate", [("Li", PyFloat 0.81); ("Co", PyFloat 0.01)]);
          ("retentate", [("Li", PyFloat 0.20); ("Co", PyFloat 0.89)])])
  /\ (forall m mix p,
         In (EvInitialize m mix p) (calls_of E argv)
         \/ In (EvUnfixDof m mix p) (calls_of E argv) ->
         p = true)
  /\ (forall m v, In (EvSetR m v) (calls_of E argv) -> v = PyFloat 0.8)
  /\ (forall m tee,
         In (EvSolve m tee) (calls_of E argv) ->
         exists pre post m',
           calls_of E argv = pre ++ EvSolve m tee :: post
           /\ set_R E (PyFloat 0.8) m' = inr m
           /\ In (EvSetR m' (PyFloat 0.8)) pre
           /\ forall e, In e pre -> is_solve e = false)
  /\ (forall prog mix s t rest ns nt,
         argv = prog :: mix :: s :: t :: rest ->
         int_ E s = inr ns ->
         int_ E t = inr nt ->
         exists evs,
           calls_of E argv
           = EvDiafiltrationModel (diafiltration_args ns nt true) :: evs)
  /\ (forall prog mix s t rest ns nt df m0 m1 m2 m3 m4,
         argv = prog :: mix :: s :: t :: rest ->
         int_ E s = inr ns ->
         int_ E t = inr nt ->
         DiafiltrationModel E (diafiltration_args ns nt true) = inr df ->
         build_flowsheet E df mix = inr m0 ->
         initialize E df m0 mix true = inr m1 ->
         unfix_dof E df m1 mix true = inr m2 ->
         precipitator_V_fix E "retentate" (PyInt 500) m2 = inr m3 ->
         precipitator_V_fix E "permeate" (PyInt 500) m3 = inr m4 ->
         report_statistics E m4 = inr tt ->
         exists evs,
           calls_of E argv =
           [EvDiafiltrationModel (diafiltration_args ns nt true);
            EvBuildFlowsheet mix;
            EvInitialize m0 mix true;
            EvUnfixDof m1 mix true;
            EvFixV m2 "retentate" (PyInt 500);
            EvFixV m3 "permeate" (PyInt 500);
            EvReportStatistics m4;
            EvSetR m4 (PyFloat 0.8)] ++ evs
           /\ forall m5 sv,
                set_R E (PyFloat 0.8) m4 = inr m5 ->
                SolverFactory E "ipopt" = inr sv ->
                exists evs',
                  evs = EvSolverFactory "ipopt" :: EvSolve m5 true :: evs')
  /\ (outcome E argv = inr tt ->
      exists ns nt pre m m' post,
        calls_of E argv =
        EvDiafiltrationModel (diafiltration_args ns nt true)
        :: pre ++ EvSetR m (PyFloat 0.8) :: EvSolverFactory "ipopt"
                  :: EvSolve m' true :: post
        /\ set_R E (PyFloat 0.8) m = inr m').
Proof.
  split; [|split; [|split; [|split; [|split; [|split]]]]].
  - exact (constructed_with_precipitate E argv).
  - exact (precipitate_passed_on E argv).
  - exact (R_only_set_to_constant E argv).
  - exact (R_set_before_solve E argv).
  - intros prog mix s t rest ns nt -> Hs Ht.
    exact (main_constructs E prog mix s t rest ns nt Hs Ht).
  - intros prog mix s t rest ns nt df m0 m1 m2 m3 m4 ->.
    exact (main_until_solve E prog mix s t rest ns nt df m0 m1 m2 m3 m4).
  - exact (returning_run_sets_R E argv).
Qed.

Lemma main_constant_settings_witness :
  (exists evs,
      calls_of (Demo.main_env false) Demo.argv =
      [EvDiafiltrationModel (diafiltration_args 2 10 true);
       EvBuildFlowsheet "mix";
       EvInitialize 0 "mix" true;
       EvUnfixDof 0 "mix" true;
       EvFixV 3 "retentate" (PyInt 500);
       EvFixV 2 "permeate" (PyInt 500);
       EvReportStatistics 1;
       EvSetR 1 (PyFloat 0.8)] ++ evs
      /\ forall m5 sv,
           set_R (Demo.main_env false) (PyFloat 0.8) 1 = inr m5 ->
           SolverFactory (Demo.main_env false) "ipopt" = inr sv ->
           exists evs',
             evs = EvSolverFactory "ipopt" :: EvSolve m5 true :: evs')
  /\ (exists ns nt pre m m' post,
         calls_of (Demo.main_env false) Demo.argv =
         EvDiafiltrationModel (diafiltration_args ns nt true)
         :: pre ++ EvSetR m (PyFloat 0.8) :: EvSolverFactory "ipopt"
                   :: EvSolve m' true :: post
         /\ set_R (Demo.main_env false) (PyFloat 0.8) m = inr m').
Proof.
  pose proof (main_constant_settings (Demo.main_env false) Demo.argv)
    as (_ & _ & _ & _ & _ & Hreach & Hret).
  split.
  - exact (Hreach "solve_diafiltration.py" "mix" "2" "10" [] 2 10
             (diafiltration_args 2 10 true) 0 0 3 2 1
             eq_refl eq_refl eq_refl eq_refl eq_refl eq_refl eq_refl eq_refl
             eq_refl eq_refl).
  - exact (Hret eq_refl).
Defined.

End MainFacts.

(* ===================================================================== *)
(** * Further properties of [build] *)
(* ===================================================================== *)

Section FindFacts.

Context {A : Type}.

Lemma find_app (f : A -> bool) (l l' : list A) :
  find f (l ++ l') =
  match find f l with Some x => Some x | None => find f l' end.
Proof.
  induction l as [|x l IH]; simpl; [reflexivity|].
  destruct (f x); [reflexivity|exact IH].
Qed.

Lemma find_all_false (f : A -> bool) (l : list A) :
  (forall x, In x l -> f x = false) -> find f l = None.
Proof.
  induction l as [|x l IH]; intros H; simpl; [reflexivity|].
  rewrite (H x (or_introl eq_refl)). apply IH. intros y Hy. apply H. now right.
Qed.

Lemma find_ext_in (f g : A -> bool) (l : list A) :
  (forall x, In x l -> f x = g x) -> find f l = find g l.
Proof.
  induction l as [|x l IH]; intros H; simpl; [reflexivity|].
  rewrite (H x (or_introl eq_refl)). destruct (g x); [reflexivity|].
  apply IH. intros y Hy. apply H. now right.
Qed.

End FindFacts.

(** The first failing index of a product whose test only looks at the
    second component. *)
Lemma find_list_prod {T : Type} (p : string -> bool) (t0 : T)
  (time : list T) (l : list string) :
  find (fun ti : T * string => p (snd ti)) (list_prod (t0 :: time) l) =
  match find p l with Some k => Some (t0, k) | None => None end.
Proof.
  cbn [list_prod]. rewrite find_app.
  assert (Hmap : find (fun ti : T * string => p (snd ti))
                   (map (fun y => (t0, y)) l)
                 = match find p l with Some k => Some (t0, k) | None => None end).
  { induction l as [|x l IH]; simpl; [reflexivity|].
    destruct (p x); [reflexivity|exact IH]. }
  rewrite Hmap. destruct (find p l) as [k|] eqn:Hf; [reflexivity|].
  apply find_all_false. intros [t i] Hti. cbn [snd].
  apply in_prod_iff in Hti as [_ Hi]. exact (find_none _ _ Hf i Hi).
Qed.

Module BuildMore.

Import Translator TranslatorAux BuildFacts.

Section WithTime.

Context {Time : Type}.

(** The outcome of [build] over a time set with at least one point. *)
Lemma build_outcome (sb : StateBlocks) (t0 : Time) (time : list Time) :
  build sb (t0 :: time) =
  match first_missing sb with
  | Some k => inl (KeyError k)
  | None => inr (built (t0 :: time))
  end.
Proof.
  unfold build, Constraint1, Constraint2, first_missing.
  rewrite (mapE_find _ (fun _ => true) flow_vol_member
             (fun _ => KeyError "") flow_vol_step).
  rewrite (mapE_find _ _ _ _ (metals_step sb)).
  rewrite (mapE_find _ _ _ _ (water_step sb)).
  rewrite (mapE_find _ _ _ _ (acids_step sb)).
  rewrite (find_all_false (fun _ : Time => negb true))
    by reflexivity.
  rewrite (find_list_prod
             (fun i => negb (has sb properties_out i
                             && has sb properties_in i)) t0 time metals).
  rewrite (find_list_prod
             (fun i => negb (has sb properties_out i)) t0 time acids).
  unfold exc_bind.
  destruct (find _ metals) as [k|]; [reflexivity|].
  cbn [find]. destruct (has sb properties_out "H2O"); cbn [negb];
    [|reflexivity].
  rewrite (find_all_false (fun _ : Time => false)) by reflexivity.
  destruct (find _ acids) as [k|]; reflexivity.
Qed.

End WithTime.

Lemma first_missing_None (sb : StateBlocks) :
  first_missing sb = None <-> all_present sb.
Proof.
  split.
  - intros H.
    pose proof (build_outcome sb tt []) as Hb. rewrite H in Hb.
    apply build_inr in Hb as [_ [Hnil|Hall]]; [discriminate|exact Hall].
  - intros Hall. destruct (first_missing sb) as [k|] eqn:Hk; [|reflexivity].
    pose proof (build_outcome sb tt []) as Hb. rewrite Hk in Hb.
    rewrite (build_succeeds sb [tt] Hall) in Hb. discriminate.
Qed.

Lemma In_existsb_eqb (i : string) (l : list string) :
  In i l -> existsb (String.eqb i) l = true.
Proof.
  intros H. apply existsb_exists. exists i. split; [exact H|].
  apply String.eqb_refl.
Qed.

Section Outcome.

Context {Time : Type}.
Variable sb : StateBlocks.
Variable time : list Time.

(** X1.  Over a time set with at least one point, [build] returns
    exactly when every species its rules subscript a side with is in that
    side's component list (the metals on both sides, water and the acids
    downstream); what it returns is then the same six components whatever
    else the component lists hold. *)
Theorem build_returns_iff :
  time <> [] ->
  ((exists cs, build sb time = inr cs) <-> all_present sb)
  /\ (forall cs, build sb time = inr cs -> cs = built time).
Proof.
  intros Ht. split; [split|].
  - intros [cs Hb]. apply build_inr in Hb as [_ [H|H]];
      [contradiction|exact H].
  - intros Hall. exists (built time). now apply build_succeeds.
  - intros cs Hb. now apply build_inr in Hb as [H _].
Qed.

(** X2.  With at least one time point, the [KeyError] of [build] names
    the first gap in construction order: a metal missing on either side
    is reported before anything else (the first such metal in the order of
    [self.metals]); with all metals present, missing downstream water is
    reported before any acid. *)
Theorem build_error_names_first_gap :
  time <> [] ->
  (forall k, first_missing sb = Some k -> build sb time = inl (KeyError k))
  /\ (forall s i,
         In i metals -> has sb s i = false ->
         exists k,
           In k metals
           /\ find (fun j => negb (has sb properties_out j
                                   && has sb properties_in j)) metals = Some k
           /\ build sb time = inl (KeyError k))
  /\ ((forall i, In i metals ->
         has sb properties_out i = true /\ has sb properties_in i = true) ->
      has sb properties_out "H2O" = false ->
      build sb time = inl (KeyError "H2O")).
Proof.
  intros Ht.
  destruct time as [|t0 time']; [contradiction|]. clear Ht.
  rewrite build_outcome.
  split; [|split].
  - intros k ->. reflexivity.
  - intros s i Hi Hmiss. unfold first_missing.
    destruct (find _ metals) as [k|] eqn:Hf.
    + exists k. apply find_some in Hf as [Hk _]. auto.
    + pose proof (find_none _ _ Hf i Hi) as H. cbv beta in H.
      apply negb_false_iff, andb_true_iff in H as [Ho Hu].
      destruct s; congruence.
  - intros Hall Hw. unfold first_missing.
    rewrite find_all_false.
    + rewrite Hw. reflexivity.
    + intros i Hi. destruct (Hall i Hi) as [-> ->]. reflexivity.
Qed.

(** X3.  [build] looks at the component lists only where its rules
    subscript them: two pairs of state blocks that agree on the downstream
    membership of the metals, water and the acids and on the upstream
    membership of the metals give the same outcome.  What else either side
    tracks, and whether the upstream side has water or acids, is never
    looked at. *)
Theorem build_reads_only_expected_species (sb' : StateBlocks) :
  (forall i, In i (expected_on properties_out) ->
             has sb properties_out i = has sb' properties_out i) ->
  (forall i, In i (expected_on properties_in) ->
             has sb properties_in i = has sb' properties_in i) ->
  build sb time = build sb' time.
Proof.
  intros Hout Hin.
  destruct time as [|t0 time']; [reflexivity|]. rewrite !build_outcome.
  assert (Hfm : first_missing sb = first_missing sb').
  { unfold first_missing.
    rewrite (find_ext_in
               (fun i => negb (has sb properties_out i
                               && has sb properties_in i))
               (fun i => negb (has sb' properties_out i
                               && has sb' properties_in i)) metals).
    2:{ intros i Hi. rewrite (Hin i Hi), (Hout i); [reflexivity|].
        unfold expected_on. apply in_or_app. now left. }
    rewrite (Hout "H2O") by (unfold expected_on; apply in_or_app; right;
                              now left).
    rewrite (find_ext_in
               (fun i => negb (has sb properties_out i))
               (fun i => negb (has sb' properties_out i)) acids).
    2:{ intros i Hi. rewrite (Hout i); [reflexivity|].
        unfold expected_on. apply in_or_app. right. now right. }
    reflexivity. }
  rewrite Hfm. reflexivity.
Qed.

(** X6.  When [build] returns, every variable a member mentions is, at a
    time point of the time set, either the volumetric flow of one of the
    two sides or the concentration of a species the rules expect on that
    side: a metal on either side, water or an acid downstream only.  No
    other state variable is touched. *)
Theorem members_mention_only_expected (cs : list (Component Time)) :
  build sb time = inr cs ->
  forall c v,
    In c (constraints_of cs) ->
    In v (vars_of_constraint c) ->
    exists s t,
      In t time
      /\ (v = flow_vol s t
          \/ exists i, In i (expected_on s) /\ v = conc_mass_comp s t i).
Proof.
  intros Hb c v Hc Hv. apply build_inr in Hb as [-> _].
  rewrite constraints_of_built in Hc.
  apply member_cases in Hc as [H|[H|[H|H]]].
  - destruct H as (t & Ht & ->). cbn in Hv.
    destruct Hv as [<-|[<-|[]]]; eauto.
  - destruct H as (t & i & Ht & Hi & ->). cbn in Hv.
    destruct Hv as [<-|[<-|[]]].
    + exists properties_out, t. split; [exact Ht|]. right. exists i.
      split; [|reflexivity]. unfold expected_on. apply in_or_app. now left.
    + exists properties_in, t. split; [exact Ht|]. right. exists i. auto.
  - destruct H as (t & Ht & ->). cbn in Hv. destruct Hv as [<-|[]].
    exists properties_out, t. split; [exact Ht|]. right. exists "H2O".
    split; [|reflexivity]. unfold expected_on. apply in_or_app. right.
    now left.
  - destruct H as (t & i & Ht & Hi & ->). cbn in Hv. destruct Hv as [<-|[]].
    exists properties_out, t. split; [exact Ht|]. right. exists i.
    split; [|reflexivity]. unfold expected_on. apply in_or_app. right.
    now right.
Qed.

Section Valuations.

Variable R : Type.
Variable num : float -> R.
Variable unit_value : PyUnit -> R.
Variable mul div : R -> R -> R.

Local Notation "'sat'" := (satisfies num unit_value mul div).

(** X4.  The emitted equations fix the downstream state as a function of
    the upstream one: two valuations that satisfy the block and agree, at
    a time point, on the upstream flow and the upstream metal
    concentrations agree there on the downstream flow and on the
    downstream concentration of every metal, of water and of every acid
    (applying the bridge to the same upstream state twice gives the same
    downstream state). *)
Theorem downstream_state_determined
  (cs : list (Component Time)) (rho1 rho2 : Var Time -> R) (t : Time) :
  build sb time = inr cs ->
  sat rho1 cs ->
  sat rho2 cs ->
  In t time ->
  rho1 (flow_vol properties_in t) = rho2 (flow_vol properties_in t) ->
  (forall i, In i metals ->
     rho1 (conc_mass_comp properties_in t i)
     = rho2 (conc_mass_comp properties_in t i)) ->
  rho1 (flow_vol properties_out t) = rho2 (flow_vol properties_out t)
  /\ forall i, In i (metals ++ "H2O" :: acids) ->
       rho1 (conc_mass_comp properties_out t i)
       = rho2 (conc_mass_comp properties_out t i).
Proof.
  intros Hb H1 H2 Ht Hflow Hmet. apply build_inr in Hb as [-> _].
  unfold satisfies in H1, H2. rewrite constraints_of_built in H1, H2.
  rewrite Forall_forall in H1, H2. split.
  - pose proof (H1 _ (flow_vol_member_in time t Ht)) as E1.
    pose proof (H2 _ (flow_vol_member_in time t Ht)) as E2.
    cbv [holds] in E1, E2. cbn in E1, E2. congruence.
  - intros i Hi. apply in_app_or in Hi as [Hi|[<-|Hi]].
    + pose proof (H1 _ (metals_member_in time t i Ht Hi)) as E1.
      pose proof (H2 _ (metals_member_in time t i Ht Hi)) as E2.
      cbv [holds] in E1, E2. cbn in E1, E2. rewrite E1, E2. now apply Hmet.
    + pose proof (H1 _ (water_member_in time t Ht)) as E1.
      pose proof (H2 _ (water_member_in time t Ht)) as E2.
      cbv [holds] in E1, E2. cbn in E1, E2. congruence.
    + pose proof (H1 _ (acids_member_in time t i Ht Hi)) as E1.
      pose proof (H2 _ (acids_member_in time t i Ht Hi)) as E2.
      cbv [holds] in E1, E2. cbn in E1, E2. congruence.
Qed.

(** X5.  The emitted equations are never contradictory: whatever the
    upstream state is, carrying it over ([propagate]: downstream flow and
    metals take the upstream values, water and the acids their reference
    values) gives a valuation that satisfies every member of the block and
    leaves every upstream variable as it was. *)
Theorem propagate_satisfies
  (cs : list (Component Time)) (rho : Var Time -> R) :
  build sb time = inr cs ->
  sat (propagate num unit_value mul div rho) cs
  /\ forall v, side_of v = properties_in ->
       propagate num unit_value mul div rho v = rho v.
Proof.
  intros Hb. apply build_inr in Hb as [-> _]. split.
  - unfold satisfies. rewrite constraints_of_built. apply Forall_forall.
    intros c Hc. apply member_cases in Hc as [H|[H|[H|H]]].
    + destruct H as (t & _ & ->). reflexivity.
    + destruct H as (t & i & _ & Hi & ->). cbv [holds].
      cbn [lhs rhs c_body metals_member eval propagate fst snd].
      now rewrite (In_existsb_eqb i metals Hi).
    + destruct H as (t & _ & ->). reflexivity.
    + destruct H as (t & i & _ & Hi & ->).
      unfold acids in Hi. cbn [In] in Hi.
      destruct Hi as [<-|[<-|[<-|[]]]]; reflexivity.
  - intros [s t|s t i]; cbn [side_of]; intros ->; reflexivity.
Qed.

End Valuations.

End Outcome.

Lemma build_returns_iff_witness :
  ((exists cs, build Demo.blocks Demo.time = inr cs)
   <-> all_present Demo.blocks)
  /\ ((exists cs, build Demo.blocks_without_Sc Demo.time = inr cs)
      <-> all_present Demo.blocks_without_Sc).
Proof.
  assert (Ht : Demo.time <> []) by discriminate.
  split.
  - exact (proj1 (build_returns_iff Demo.blocks Demo.time Ht)).
  - exact (proj1 (build_returns_iff Demo.blocks_without_Sc Demo.time Ht)).
Defined.

Lemma build_error_names_first_gap_witness :
  build FailingDemo.blocks_with_gaps Demo.time = inl (KeyError "Sc")
  /\ build FailingDemo.blocks_without_SO4 Demo.time = inl (KeyError "SO4").
Proof.
  assert (Ht : Demo.time <> []) by discriminate.
  split.
  - exact (proj1 (build_error_names_first_gap FailingDemo.blocks_with_gaps
                    Demo.time Ht) "Sc" eq_refl).
  - exact (proj1 (build_error_names_first_gap FailingDemo.blocks_without_SO4
                    Demo.time Ht) "SO4" eq_refl).
Defined.

Lemma build_reads_only_expected_species_witness :
  build Demo.blocks Demo.time
  = build {| component_list := fun s =>
               match s with
               | properties_in => "Cl" :: metals
               | properties_out =>
                   "Zn" :: "SO4" :: "HSO4" :: "H" :: "H2O" :: metals
               end |} Demo.time.
Proof.
  apply build_reads_only_expected_species.
  - intros i Hi. cbn in Hi.
    repeat (destruct Hi as [<-|Hi]; [reflexivity|]). contradiction.
  - intros i Hi. cbn in Hi.
    repeat (destruct Hi as [<-|Hi]; [reflexivity|]). contradiction.
Defined.

Lemma members_mention_only_expected_witness :
  exists s t,
    In t Demo.time
    /\ (conc_mass_comp properties_in 0 "Nd" = flow_vol s t
        \/ exists i, In i (expected_on s)
                     /\ conc_mass_comp properties_in 0 "Nd"
                        = conc_mass_comp s t i).
Proof.
  refine (members_mention_only_expected Demo.blocks Demo.time
            (built Demo.time) eq_refl (metals_member (0, "Nd")) _ _ _).
  - apply (metals_member_in Demo.time 0 "Nd"); cbn; auto 12.
  - cbn. auto.
Defined.

Lemma downstream_state_determined_witness :
  propagate (fun _ => 0) (fun _ => 1) Z.mul Z.div (fun _ => 7)
    (flow_vol properties_out 0)
  = propagate (fun _ => 0) (fun _ => 1) Z.mul Z.div
      (fun v => match v with
                | conc_mass_comp properties_out _ "Zn" => 9
                | _ => 7
                end)
      (flow_vol properties_out 0).
Proof.
  refine (proj1 (downstream_state_determined Demo.blocks Demo.time Z
                   (fun _ => 0) (fun _ => 1) Z.mul Z.div (built Demo.time)
                   _ _ 0 eq_refl _ _ (or_introl eq_refl) eq_refl _)).
  - exact (proj1 (propagate_satisfies Demo.blocks Demo.time Z
                    (fun _ => 0) (fun _ => 1) Z.mul Z.div _ _ eq_refl)).
  - exact (proj1 (propagate_satisfies Demo.blocks Demo.time Z
                    (fun _ => 0) (fun _ => 1) Z.mul Z.div _ _ eq_refl)).
  - intros i _. reflexivity.
Defined.

Lemma propagate_satisfies_witness :
  satisfies (fun _ => 0) (fun _ => 1) Z.mul Z.div
    (propagate (fun _ => 0) (fun _ => 1) Z.mul Z.div (fun _ => 7))
    (built Demo.time).
Proof.
  exact (proj1 (propagate_satisfies Demo.blocks Demo.time Z
                  (fun _ => 0) (fun _ => 1) Z.mul Z.div _ (fun _ => 7)
                  eq_refl)).
Defined.

End BuildMore.

(* ===================================================================== *)
(** * Further properties of [initialize_build] *)
(* ===================================================================== *)

Module InitializeMore.

Import Translator InitializeFacts.

Section WithEnv.

Context {Model Flags Results Solver StateArgs OutLvl OptArg SolverArg : Type}.
Variable E : Env Model Flags Results Solver StateArgs OutLvl OptArg SolverArg.
Variables state_args_in state_args_out : option StateArgs.
Variable outlvl : OutLvl.
Variable solver : option SolverArg.
Variable optarg : option OptArg.

Local Notation "'run'" :=
  (initialize_build E state_args_in state_args_out outlvl solver optarg).
Local Notation "'initialized'" :=
  (initialized_from E state_args_in state_args_out outlvl solver optarg).
Local Notation "'init_in'" :=
  (properties_in_initialize E outlvl optarg solver state_args_in true).
Local Notation "'init_out'" :=
  (properties_out_initialize E outlvl optarg solver state_args_out).

(** X7.  [initialize_build] returns normally exactly when every
    collaborator returned, the degree-of-freedom count after the two
    initializations was zero and the solve result is optimal; it then
    leaves the model as [release_state] left it, having made exactly the
    calls inlet initialize (holding the state), outlet initialize, solve,
    release with the flags of the inlet, and the log line, in this
    order. *)
Theorem initialize_build_returns_iff (w w' : World Model Flags) :
  run w = (inr tt, w') <->
  exists opt fl m1 m2 res m3 m4,
    initialized w opt fl m1 m2
    /\ degrees_of_freedom E m2 = 0
    /\ opt_solve E opt m2 = (inr res, m3)
    /\ properties_in_release_state E fl outlvl m3 = (inr tt, m4)
    /\ check_optimal_termination E res = true
    /\ w' = {| model := m4;
               events := events w ++
                 [EvInitialize properties_in true;
                  EvInitialize properties_out false;
                  EvSolve;
                  EvReleaseState fl;
                  EvLogInfo ("Initialization Complete: "
                             ++ condition E res)%string] |}.
Proof.
  split.
  - unfold initialized_from. run_cases; intros [= <-].
    all: repeat match goal with u : unit |- _ => destruct u end.
    all: repeat match goal with
         | H : negb (_ =? 0) = false |- _ =>
             apply negb_false_iff, Z.eqb_eq in H
         | H : negb _ = false |- _ => apply negb_false_iff in H
         end.
    all: rewrite <- !app_assoc; cbn [app].
    all: eexists _, _, _, _, _, _, _.
    all: repeat split; try eassumption; reflexivity.
  - intros (opt & fl & m1 & m2 & res & m3 & m4
            & Hinit & Hd & Hsolve & Hrel & Hopt & ->).
    rewrite (run_dof_zero E _ _ _ _ _ w opt fl m1 m2 res m3 m4
               Hinit Hd Hsolve Hrel).
    now rewrite Hopt.
Qed.

(** X8.  An exception of [get_solver] or of either state-block
    initialization leaves [initialize_build] unchanged, and nothing further
    is called: no solver, no initialization at all when [get_solver]
    raises; no outlet initialization when the inlet one raises; and when
    the outlet one raises, neither the solve nor [release_state] although
    the inlet state block had been initialized with [hold_state=True]. *)
Theorem failures_before_solve_propagate (w : World Model Flags) (e : exn) :
  (get_solver E solver optarg = inl e -> run w = (inl e, w))
  /\ (forall opt m1,
         get_solver E solver optarg = inr opt ->
         init_in (model w) = (inl e, m1) ->
         run w = (inl e, {| model := m1;
                            events := events w ++
                              [EvInitialize properties_in true] |}))
  /\ (forall opt fl m1 m2,
         get_solver E solver optarg = inr opt ->
         init_in (model w) = (inr fl, m1) ->
         init_out m1 = (inl e, m2) ->
         run w = (inl e, {| model := m2;
                            events := events w ++
                              [EvInitialize properties_in true;
                               EvInitialize properties_out false] |})).
Proof.
  split; [|split].
  - intros Hs.
    unfold initialize_build, bind, lift_exc. now rewrite Hs.
  - intros opt m1 Hs Hi.
    unfold initialize_build, bind, lift_exc, call. now rewrite Hs, Hi.
  - intros opt fl m1 m2 Hs Hi Ho.
    unfold initialize_build, bind, lift_exc, call. rewrite Hs, Hi.
    cbn [model events]. rewrite Ho. now rewrite <- app_assoc.
Qed.

(** X9.  When the solve itself raises (rather than returning a result),
    the exception leaves [initialize_build] and [release_state] is not
    called: the inlet state stays as the initialization with
    [hold_state=True] left it and nothing is logged. *)
Theorem solve_exception_leaves_state_held
  (w : World Model Flags) opt fl m1 m2 (e : exn) m3 :
  initialized w opt fl m1 m2 ->
  degrees_of_freedom E m2 = 0 ->
  opt_solve E opt m2 = (inl e, m3) ->
  run w = (inl e, {| model := m3;
                     events := events w ++
                       [EvInitialize properties_in true;
                        EvInitialize properties_out false;
                        EvSolve] |}).
Proof.
  intros (Hs & Hi & Ho) Hd Hsolve.
  unfold initialize_build, bind, lift_exc, call, query, log_info, raise, ret.
  rewrite Hs, Hi. cbn [model events]. rewrite Ho. cbn [model events].
  rewrite Hd. cbn [Z.eqb negb model events]. rewrite Hsolve.
  now rewrite <- !app_assoc.
Qed.

(** X10.  When [release_state] raises, its exception is what leaves
    [initialize_build], whatever the solve result was: the completion line
    is not logged and a non-optimal result is not reported as
    [InitializationError]. *)
Theorem release_exception_takes_precedence
  (w : World Model Flags) opt fl m1 m2 res m3 (e : exn) m4 :
  initialized w opt fl m1 m2 ->
  degrees_of_freedom E m2 = 0 ->
  opt_solve E opt m2 = (inr res, m3) ->
  properties_in_release_state E fl outlvl m3 = (inl e, m4) ->
  run w = (inl e, {| model := m4;
                     events := events w ++
                       [EvInitialize properties_in true;
                        EvInitialize properties_out false;
                        EvSolve;
                        EvReleaseState fl] |}).
Proof.
  intros (Hs & Hi & Ho) Hd Hsolve Hrel.
  unfold initialize_build, bind, lift_exc, call, query, log_info, raise, ret.
  rewrite Hs, Hi. cbn [model events]. rewrite Ho. cbn [model events].
  rewrite Hd. cbn [Z.eqb negb model events]. rewrite Hsolve.
  cbn [model events]. rewrite Hrel. now rewrite <- !app_assoc.
Qed.

(** X11.  Whatever the collaborators do, the calls of one run of
    [initialize_build] that work on the model, together with the log line
    the method writes, are an initial part of: inlet initialize with
    [hold_state=True], outlet initialize without it, solve,
    [release_state], completion line.  So none of these four calls is made
    twice (the solve is never retried), [release_state] is never called
    before the solve, and the completion line is never logged before
    [release_state] was called.  ([get_solver] and the reads of
    [degrees_of_freedom] do not touch the model and are not in this
    list.) *)
Theorem calls_in_fixed_order (w : World Model Flags) r w' evs :
  run w = (r, w') ->
  events w' = events w ++ evs ->
  evs = []
  \/ evs = [EvInitialize properties_in true]
  \/ evs = [EvInitialize properties_in true;
            EvInitialize properties_out false]
  \/ evs = [EvInitialize properties_in true;
            EvInitialize properties_out false; EvSolve]
  \/ (exists fl,
        evs = [EvInitialize properties_in true;
               EvInitialize properties_out false; EvSolve;
               EvReleaseState fl])
  \/ (exists fl res,
        evs = [EvInitialize properties_in true;
               EvInitialize properties_out false; EvSolve;
               EvReleaseState fl;
               EvLogInfo ("Initialization Complete: "
                          ++ condition E res)%string]).
Proof.
  intros Hrun Hev. revert Hrun.
  run_cases; intros [= <- <-]; read_events Hev.
  all: first
         [ now left
         | now (right; left)
         | now (right; right; left)
         | now (right; right; right; left)
         | right; right; right; right; left; eexists; reflexivity
         | right; right; right; right; right; eexists _, _; reflexivity ].
Qed.

End WithEnv.

Lemma initialize_build_returns_iff_witness :
  initialize_build (Demo.translator_env true) None None tt None None
    (Demo.world 0)
  = (inr tt,
     {| model := {| Demo.dof := 0; Demo.inlet_fixed := false |};
        events := [EvInitialize properties_in true;
                   EvInitialize properties_out false;
                   EvSolve;
                   EvReleaseState tt;
                   EvLogInfo "Initialization Complete: optimal"] |}).
Proof.
  apply (proj2 (initialize_build_returns_iff (Demo.translator_env true)
                  None None tt None None (Demo.world 0) _)).
  exists tt, tt, {| Demo.dof := 0; Demo.inlet_fixed := true |},
    {| Demo.dof := 0; Demo.inlet_fixed := true |}, true,
    {| Demo.dof := 0; Demo.inlet_fixed := true |},
    {| Demo.dof := 0; Demo.inlet_fixed := false |}.
  repeat split.
Defined.

Lemma failures_before_solve_propagate_witness :
  initialize_build (FailingDemo.translator_env 2) None None tt None None
    (Demo.world 0)
  = (inl (ExternalError "properties_out.initialize"),
     {| model := {| Demo.dof := 0; Demo.inlet_fixed := true |};
        events := [EvInitialize properties_in true;
                   EvInitialize properties_out false] |}).
Proof.
  exact (proj2 (proj2 (failures_before_solve_propagate
                         (FailingDemo.translator_env 2) None None tt None None
                         (Demo.world 0) _))
           tt tt _ _ eq_refl eq_refl eq_refl).
Defined.

Lemma solve_exception_leaves_state_held_witness :
  initialize_build (FailingDemo.translator_env 3) None None tt None None
    (Demo.world 0)
  = (inl (ExternalError "solve"),
     {| model := {| Demo.dof := 0; Demo.inlet_fixed := true |};
        events := [EvInitialize properties_in true;
                   EvInitialize properties_out false;
                   EvSolve] |}).
Proof.
  exact (solve_exception_leaves_state_held (FailingDemo.translator_env 3)
           None None tt None None (Demo.world 0) tt tt _ _ _ _
           (conj eq_refl (conj eq_refl eq_refl)) eq_refl eq_refl).
Defined.

Lemma release_exception_takes_precedence_witness :
  initialize_build (FailingDemo.translator_env 4) None None tt None None
    (Demo.world 0)
  = (inl (ExternalError "release_state"),
     {| model := {| Demo.dof := 0; Demo.inlet_fixed := true |};
        events := [EvInitialize properties_in true;
                   EvInitialize properties_out false;
                   EvSolve;
                   EvReleaseState tt] |}).
Proof.
  exact (release_exception_takes_precedence (FailingDemo.translator_env 4)
           None None tt None None (Demo.world 0) tt tt _ _ false _ _ _
           (conj eq_refl (conj eq_refl eq_refl)) eq_refl eq_refl eq_refl).
Defined.

Lemma calls_in_fixed_order_witness :
  let evs :=
    events (snd (initialize_build (FailingDemo.translator_env 3)
                   None None tt None None (Demo.world 0))) in
  evs = []
  \/ evs = [EvInitialize properties_in true]
  \/ evs = [EvInitialize properties_in true;
            EvInitialize properties_out false]
  \/ evs = [EvInitialize properties_in true;
            EvInitialize properties_out false; EvSolve]
  \/ (exists fl,
        evs = [EvInitialize properties_in true;
               EvInitialize properties_out false; EvSolve;
               EvReleaseState fl])
  \/ (exists fl res,
        evs = [EvInitialize properties_in true;
               EvInitialize properties_out false; EvSolve;
               EvReleaseState fl;
               EvLogInfo ("Initialization Complete: "
                          ++ condition (FailingDemo.translator_env 3) res)%string]).
Proof.
  exact (calls_in_fixed_order (FailingDemo.translator_env 3)
           None None tt None None (Demo.world 0) _ _ _ eq_refl eq_refl).
Defined.

End InitializeMore.

(* ===================================================================== *)
(** * Further properties of [main] *)
(* ===================================================================== *)

Module MainMore.

Import SolveDiafiltration MainAux MainFacts.

Ltac pick_prefix :=
  first [ exists 0%nat; reflexivity | exists 1%nat; reflexivity
        | exists 2%nat; reflexivity | exists 3%nat; reflexivity
        | exists 4%nat; reflexivity | exists 5%nat; reflexivity
        | exists 6%nat; reflexivity | exists 7%nat; reflexivity
        | exists 8%nat; reflexivity | exists 9%nat; reflexivity
        | exists 10%nat; reflexivity | exists 11%nat; reflexivity
        | exists 12%nat; reflexivity | exists 13%nat; reflexivity ].

Section WithEnv.

Context {DF Model Solver Results : Type}.
Variable E : Env DF Model Solver Results.

(** X12.  With fewer than three positional arguments [main] raises before
    it calls anything.  The exception is [IndexError] ("list index out of
    range"), except that with exactly two positional arguments the stage
    count is converted first, so that an exception of [int] on it is what
    leaves. *)
Theorem main_too_few_arguments (argv : list string) :
  (length argv < 4)%nat ->
  calls_of E argv = []
  /\ (exists e, outcome E argv = inl e)
  /\ (length argv <> 3%nat ->
      outcome E argv = inl (IndexError "list index out of range"))
  /\ (forall prog mix s,
         argv = [prog; mix; s] ->
         outcome E argv =
         match int_ E s with
         | inl e => inl e
         | inr _ => inl (IndexError "list index out of range")
         end).
Proof.
  intros Hlen.
  destruct argv as [|prog [|mix [|s [|t rest]]]]; cbn [length] in Hlen;
    try lia.
  1-3: (split; [reflexivity
               |split; [eexists; reflexivity
                       |split; [intros _; reflexivity|intros ? ? ? [=]]]]).
  main_unfold. destruct (int_ E s) as [e|ns] eqn:Hs;
      (split; [reflexivity
              |split; [eexists; reflexivity
                      |split; [intros H; now contradiction H|]]]);
      intros ? ? ? [= <- <- <-]; now rewrite Hs.
Qed.

(** X13.  The two counts are converted in order and a failing conversion
    is fatal before anything is constructed: an exception of [int] on the
    stage count leaves [main] whether or not a tube count follows, and an
    exception of [int] on the tube count leaves [main] after the stage
    count was read; in both cases no collaborator has been called. *)
Theorem main_int_errors_propagate
  (prog mix s : string) (rest : list string) (e : exn) :
  (int_ E s = inl e ->
   outcome E (prog :: mix :: s :: rest) = inl e
   /\ calls_of E (prog :: mix :: s :: rest) = [])
  /\ (forall t rest' ns,
         rest = t :: rest' ->
         int_ E s = inr ns ->
         int_ E t = inl e ->
         outcome E (prog :: mix :: s :: rest) = inl e
         /\ calls_of E (prog :: mix :: s :: rest) = []).
Proof.
  split.
  - intros Hs. main_unfold. rewrite Hs. split; reflexivity.
  - intros t rest' ns -> Hs Ht. main_unfold. rewrite Hs, Ht.
    split; reflexivity.
Qed.

(** X14.  [main] returns normally exactly when there are at least three
    positional arguments, both counts convert, and every collaborator call
    returns, each being given the model as the previous one left it; the
    calls of such a run are the thirteen calls of the source text, in
    order.  Neither [argv[0]] nor any argument after the third matters. *)
Theorem main_returns_iff (argv : list string) :
  outcome E argv = inr tt <->
  exists prog mix s t rest ns nt df m0 m1 m2 m3 m4 m5 sv res m6,
    argv = prog :: mix :: s :: t :: rest
    /\ int_ E s = inr ns
    /\ int_ E t = inr nt
    /\ DiafiltrationModel E (diafiltration_args ns nt true) = inr df
    /\ build_flowsheet E df mix = inr m0
    /\ initialize E df m0 mix true = inr m1
    /\ unfix_dof E df m1 mix true = inr m2
    /\ precipitator_V_fix E "retentate" (PyInt 500) m2 = inr m3
    /\ precipitator_V_fix E "permeate" (PyInt 500) m3 = inr m4
    /\ report_statistics E m4 = inr tt
    /\ set_R E (PyFloat 0.8) m4 = inr m5
    /\ SolverFactory E "ipopt" = inr sv
    /\ solve E sv m5 true = inr (res, m6)
    /\ display E "prec_perc_co" m6 = inr tt
    /\ display E "prec_perc_li" m6 = inr tt
    /\ report_values E m6 = inr tt
    /\ calls_of E argv =
       [EvDiafiltrationModel (diafiltration_args ns nt true);
        EvBuildFlowsheet mix;
        EvInitialize m0 mix true;
        EvUnfixDof m1 mix true;
        EvFixV m2 "retentate" (PyInt 500);
        EvFixV m3 "permeate" (PyInt 500);
        EvReportStatistics m4;
        EvSetR m4 (PyFloat 0.8);
        EvSolverFactory "ipopt";
        EvSolve m5 true;
        EvDisplay m6 "prec_perc_co";
        EvDisplay m6 "prec_perc_li";
        EvReportValues m6].
Proof.
  split.
  - destruct argv as [|prog [|mix [|s [|t rest]]]];
      try (main_cases; discriminate).
    main_cases; try discriminate; intros Hrv.
    repeat match goal with u : unit |- _ => destruct u end.
    repeat match goal with p : (_ * _)%type |- _ => destruct p end.
    cbn [fst snd] in *.
    eexists prog, mix, s, t, rest, _, _, _, _, _, _, _, _, _, _, _, _.
    repeat split; try eassumption; reflexivity.
  - intros (prog & mix & s & t & rest & ns & nt & df & m0 & m1 & m2 & m3
            & m4 & m5 & sv & res & m6 & -> & Hs & Ht & Hdf & Hb & Hi & Hu
            & Hf1 & Hf2 & Hrep & HR & Hsv & Hsolve & Hd1 & Hd2 & Hrv & _).
    main_unfold.
    rewrite Hs, Ht. cbn [fst snd app]. rewrite Hdf. cbn [fst snd app].
    rewrite Hb. cbn [fst snd app]. rewrite Hi. cbn [fst snd app].
    rewrite Hu. cbn [fst snd app]. rewrite Hf1. cbn [fst snd app].
    rewrite Hf2. cbn [fst snd app]. rewrite Hrep. cbn [fst snd app].
    rewrite HR. cbn [fst snd app]. rewrite Hsv. cbn [fst snd app].
    rewrite Hsolve. cbn [fst snd app]. rewrite Hd1. cbn [fst snd app].
    rewrite Hd2. cbn [fst snd app]. rewrite Hrv. reflexivity.
Qed.

(** X15.  Whatever the arguments are and whatever the collaborators do,
    the callees of one run of [main] are an initial part of the thirteen
    callees in the order of the source text: nothing is called twice,
    skipped or called out of order, and a call that raises is the last
    one. *)
Theorem main_calls_in_source_order (argv : list string) :
  exists n, map call_name (calls_of E argv) = firstn n main_call_order.
Proof.
  main_cases; pick_prefix.
Qed.

(** X16.  When the solver raises instead of returning, its exception
    leaves [main] and neither recovery metric is displayed nor the report
    printed. *)
Theorem solver_exception_skips_reports
  (prog mix s t : string) (rest : list string) (ns nt : Z) (df : DF)
  (m0 m1 m2 m3 m4 m5 : Model) (sv : Solver) (e : exn) :
  int_ E s = inr ns ->
  int_ E t = inr nt ->
  DiafiltrationModel E (diafiltration_args ns nt true) = inr df ->
  build_flowsheet E df mix = inr m0 ->
  initialize E df m0 mix true = inr m1 ->
  unfix_dof E df m1 mix true = inr m2 ->
  precipitator_V_fix E "retentate" (PyInt 500) m2 = inr m3 ->
  precipitator_V_fix E "permeate" (PyInt 500) m3 = inr m4 ->
  report_statistics E m4 = inr tt ->
  set_R E (PyFloat 0.8) m4 = inr m5 ->
  SolverFactory E "ipopt" = inr sv ->
  solve E sv m5 true = inl e ->
  outcome E (prog :: mix :: s :: t :: rest) = inl e
  /\ calls_of E (prog :: mix :: s :: t :: rest) =
     [EvDiafiltrationModel (diafiltration_args ns nt true);
      EvBuildFlowsheet mix;
      EvInitialize m0 mix true;
      EvUnfixDof m1 mix true;
      EvFixV m2 "retentate" (PyInt 500);
      EvFixV m3 "permeate" (PyInt 500);
      EvReportStatistics m4;
      EvSetR m4 (PyFloat 0.8);
      EvSolverFactory "ipopt";
      EvSolve m5 true].
Proof.
  intros Hs Ht Hdf Hb Hi Hu Hf1 Hf2 Hrep HR Hsv Hsolve. main_unfold.
  rewrite Hs, Ht. cbn [fst snd app]. rewrite Hdf. cbn [fst snd app].
  rewrite Hb. cbn [fst snd app]. rewrite Hi. cbn [fst snd app].
  rewrite Hu. cbn [fst snd app]. rewrite Hf1. cbn [fst snd app].
  rewrite Hf2. cbn [fst snd app]. rewrite Hrep. cbn [fst snd app].
  rewrite HR. cbn [fst snd app]. rewrite Hsv. cbn [fst snd app].
  rewrite Hsolve. split; reflexivity.
Qed.

End WithEnv.

Lemma main_too_few_arguments_witness :
  calls_of (Demo.main_env true) ["solve_diafiltration.py"; "mix"; "x"] = []
  /\ outcome (Demo.main_env true) ["solve_diafiltration.py"; "mix"; "x"]
     = inl (ValueError "invalid literal for int() with base 10")
  /\ outcome (Demo.main_env true) ["solve_diafiltration.py"; "mix"; "2"]
     = inl (IndexError "list index out of range")
  /\ outcome (Demo.main_env true) ["solve_diafiltration.py"]
     = inl (IndexError "list index out of range").
Proof.
  assert (H3 : (length ["solve_diafiltration.py"; "mix"; "x"] < 4)%nat)
    by (cbn; lia).
  assert (H3' : (length ["solve_diafiltration.py"; "mix"; "2"] < 4)%nat)
    by (cbn; lia).
  assert (H1 : (length ["solve_diafiltration.py"] < 4)%nat) by (cbn; lia).
  split; [|split; [|split]].
  - exact (proj1 (main_too_few_arguments (Demo.main_env true) _ H3)).
  - exact (proj2 (proj2 (proj2 (main_too_few_arguments (Demo.main_env true)
                                  _ H3))) _ _ _ eq_refl).
  - exact (proj2 (proj2 (proj2 (main_too_few_arguments (Demo.main_env true)
                                  _ H3'))) _ _ _ eq_refl).
  - refine (proj1 (proj2 (proj2 (main_too_few_arguments (Demo.main_env true)
                                   _ H1))) _). discriminate.
Defined.

Lemma main_int_errors_propagate_witness :
  outcome (Demo.main_env true) ["solve_diafiltration.py"; "mix"; "2"; "ten"]
  = inl (ValueError "invalid literal for int() with base 10")
  /\ calls_of (Demo.main_env true)
       ["solve_diafiltration.py"; "mix"; "2"; "ten"] = [].
Proof.
  exact (proj2 (main_int_errors_propagate (Demo.main_env true)
                  "solve_diafiltration.py" "mix" "2" ["ten"] _)
           "ten" [] 2 eq_refl eq_refl eq_refl).
Defined.

Lemma main_returns_iff_witness :
  outcome (Demo.main_env false)
    ["prog"; "mix"; "2"; "10"; "ignored"; "also ignored"] = inr tt.
Proof.
  apply (proj2 (main_returns_iff (Demo.main_env false) _)).
  exists "prog", "mix", "2", "10", ["ignored"; "also ignored"], 2, 10,
    (diafiltration_args 2 10 true), 0, 0, 3, 2, 1, 1, tt, false, 1.
  repeat split.
Defined.

Lemma solver_exception_skips_reports_witness :
  outcome FailingDemo.main_env Demo.argv = inl (ExternalError "ipopt")
  /\ calls_of FailingDemo.main_env Demo.argv =
     [EvDiafiltrationModel (diafiltration_args 2 10 true);
      EvBuildFlowsheet "mix";
      EvInitialize 0 "mix" true;
      EvUnfixDof 0 "mix" true;
      EvFixV 3 "retentate" (PyInt 500);
      EvFixV 2 "permeate" (PyInt 500);
      EvReportStatistics 1;
      EvSetR 1 (PyFloat 0.8);
      EvSolverFactory "ipopt";
      EvSolve 1 true].
Proof.
  exact (solver_exception_skips_reports FailingDemo.main_env
           "solve_diafiltration.py" "mix" "2" "10" [] 2 10
           (diafiltration_args 2 10 true) 0 0 3 2 1 1 tt _
           eq_refl eq_refl eq_refl eq_refl eq_refl eq_refl eq_refl eq_refl
           eq_refl eq_refl eq_refl eq_refl).
Defined.

End MainMore.
